(** * meemoo/helpers.py: event-field lookup and the MediaHaven sidecar builder

    A shallow embedding of [try_to_find_md5], [get_from_event] and the class
    [SidecarBuilder] of [meemoo/helpers.py], with the properties of the
    sidecar specification proved about it.

    Conventions of the embedding:
    - a Python [str] is a [string] holding its UTF-8 bytes, [bytes] is a
      [list byte];
    - a Python [dict] is an association list in insertion order; its keys are
      pairwise distinct ([NoDup]), which the statements that need it assume;
    - a raised exception is a value of [exn]; a computation that may raise
      and that reads or writes the object store is a function of type [M A];
    - lxml's objects live in a store indexed by allocation order, so that
      [root], [node] and [doc] are references, as they are in the source;
    - lxml itself is a library that [helpers.py] imports: the part of
      [lxml.etree] that the builder calls ([Element], [SubElement],
      [ElementTree], the [text] property, [tostring]) is modelled after the
      library, with libxml2's checks of names, URIs and text as parameters
      (class [Lxml]);
    - [str.lower] is a builtin whose case mappings come with the
      interpreter: it is a parameter of the model (class [Unicode]), with
      what holds of it in every interpreter;
    - the class [FTP] is followed through the calls that it makes to
      [ftplib]; what [ftplib] and [urllib.parse] answer is a parameter of
      the model (module [Ftp]);
    - the calls to the logger are left out: they write to the log and
      decide nothing. *)

From Stdlib Require Import Strings.Ascii Strings.String Strings.Byte.
From stdpp Require Import base option list strings pretty.

Local Open Scope string_scope.
Local Open Scope list_scope.
Set Warnings "-register-all".

(** ** Python values, exceptions, results *)

Module Py.

(** The values that [json.loads] produces and that the callers assemble. *)
Inductive pyval : Type :=
| VNone
| VBool (b : bool)
| VInt (z : Z)
| VStr (s : string)
| VList (xs : list pyval)
| VDict (items : list (string * pyval)).

(** A dict with string keys, in insertion order. *)
Abbreviation dict := (list (string * pyval)).

Inductive exn : Type :=
| AssertionError (msg : string)
| AttributeError (msg : string)
| KeyError (key : string)
| IndexError (msg : string)
| TypeError (msg : string)
| ValueError (msg : string).

Inductive result (A : Type) : Type :=
| Ok (a : A)
| Raise (e : exn).
Arguments Ok {A} a.
Arguments Raise {A} e.

Definition rbind {A B} (r : result A) (k : A -> result B) : result B :=
  match r with
  | Ok a => k a
  | Raise e => Raise e
  end.

(** The double quote character, for the messages that quote a key. *)
Definition dq : string := String "034"%char EmptyString.

Definition keys (d : dict) : list string := d.*1.

(** [k in d] *)
Definition dict_mem (k : string) (d : dict) : bool := bool_decide (k ∈ keys d).

(** [d.get(k)]: the value stored under [k], if any. *)
Fixpoint dict_get (d : dict) (k : string) : option pyval :=
  match d with
  | [] => None
  | (k', v) :: d' => if String.eqb k' k then Some v else dict_get d' k
  end.

(** [x[k]] for a string subscript. *)
Definition getitem (x : pyval) (k : string) : result pyval :=
  match x with
  | VDict d =>
      match dict_get d k with
      | Some v => Ok v
      | None => Raise (KeyError k)
      end
  | VList _ => Raise (TypeError "list indices must be integers or slices, not str")
  | VStr _ => Raise (TypeError "string indices must be integers")
  | _ => Raise (TypeError "object is not subscriptable")
  end.

(** [x[0]] *)
Definition getitem0 (x : pyval) : result pyval :=
  match x with
  | VList (v :: _) => Ok v
  | VList [] => Raise (IndexError "list index out of range")
  | VStr (String c _) => Ok (VStr (String c EmptyString))
  | VStr EmptyString => Raise (IndexError "string index out of range")
  | VDict d =>
      (* an int subscript is never equal to a str key *)
      Raise (KeyError "0")
  | _ => Raise (TypeError "object is not subscriptable")
  end.

(** [x.keys()] and [x.items()]: only a dict has them. *)
Definition dict_of (x : pyval) (attr : string) : result dict :=
  match x with
  | VDict d => Ok d
  | _ => Raise (AttributeError ("object has no attribute '" +:+ attr +:+ "'"))
  end.

(** [s.isascii()]: every character of [s] is below 128. *)
Fixpoint isascii (s : string) : bool :=
  match s with
  | EmptyString => true
  | String c s' => (nat_of_ascii c <? 128)%nat && isascii s'
  end.

(** What [str.lower] does to a string of ASCII characters: the letters
    [A]-[Z] become [a]-[z], every other character is left as it is. *)
Definition lower_ascii (c : ascii) : ascii :=
  let n := nat_of_ascii c in
  if (65 <=? n)%nat && (n <=? 90)%nat then ascii_of_nat (n + 32) else c.

Fixpoint ascii_lower (s : string) : string :=
  match s with
  | EmptyString => EmptyString
  | String c s' => String (lower_ascii c) (ascii_lower s')
  end.

(** [str.lower] is a builtin: beyond ASCII it follows the case mappings of
    the Unicode database that the interpreter ships (the Kelvin sign is
    lowered to [k], a capital sigma to one of the two small ones).  The
    function is a parameter of the model, with two facts that hold of it in
    every interpreter: a lowered string is not changed by lowering it again,
    and on a string of ASCII characters it is [ascii_lower]. *)
Class Unicode : Type := {
  lower : string -> string;
  lower_idemp : forall s, lower (lower s) = lower s;
  lower_isascii : forall s, isascii s = true -> lower s = ascii_lower s
}.

(** ['.'.join(parts)]: every part has to be a [str]. *)
Fixpoint join_strs (parts : list pyval) : result (list string) :=
  match parts with
  | [] => Ok []
  | VStr s :: ps => rbind (join_strs ps) (fun ss => Ok (s :: ss))
  | _ :: _ => Raise (TypeError "sequence item: expected str instance")
  end.

Definition str_join (sep : string) (parts : list pyval) : result string :=
  rbind (join_strs parts) (fun ss => Ok (String.concat sep ss)).

End Py.
Import Py.

(** ** The event-field extractor *)

Definition BASE_DOMAIN : string := "viaa.be".

Definition POSSIBLE_KEYS : list string :=
  ["x-md5sum-meta"; "md5sum"; "x-amz-meta-md5sum"].

(** The loop of [try_to_find_md5] over the candidate keys that are left. *)
Fixpoint try_keys (candidates : list string) (object_metadata : pyval)
  : result pyval :=
  match candidates with
  | [] => Ok (VStr "")
  | key :: rest =>
      rbind (dict_of object_metadata "keys") (fun d =>
        if dict_mem key d then getitem object_metadata key
        else try_keys rest object_metadata)
  end.

Definition try_to_find_md5 (object_metadata : pyval) : result pyval :=
  try_keys POSSIBLE_KEYS object_metadata.

Definition event_keys : list string :=
  ["bucket"; "object_key"; "host"; "tenant"; "md5"].

Definition get_from_event `{Unicode} (event : pyval) (name : string)
  : result pyval :=
  let name := lower name in
  if bool_decide (name ∈ event_keys) then
    rbind (getitem event "Records") (fun records =>
    rbind (getitem0 records) (fun record =>
    rbind (getitem record "s3") (fun s3_sub =>
      if String.eqb name "bucket" then
        rbind (getitem s3_sub "bucket") (fun b => getitem b "name")
      else if String.eqb name "object_key" then
        rbind (getitem s3_sub "object") (fun o => getitem o "key")
      else if String.eqb name "host" then
        rbind (getitem s3_sub "bucket") (fun b =>
        rbind (getitem b "name") (fun bucket_name =>
        rbind (getitem s3_sub "domain") (fun d =>
        rbind (getitem d "name") (fun domain_name =>
        rbind (str_join "." [bucket_name; domain_name; VStr BASE_DOMAIN])
              (fun host => Ok (VStr host))))))
      else if String.eqb name "tenant" then
        rbind (getitem s3_sub "bucket") (fun b =>
        rbind (getitem b "metadata") (fun m => getitem m "tenant"))
      else if String.eqb name "md5" then
        rbind (getitem s3_sub "object") (fun o =>
        rbind (getitem o "metadata") try_to_find_md5)
      else Ok VNone)))
  else Raise (AssertionError ("Unknown key: " +:+ dq +:+ name +:+ dq)).

(** A result that is not an assertion error: the name has passed the check
    of [get_from_event]. *)
Definition no_assertion {A} (r : result A) : Prop :=
  forall msg, r <> Raise (AssertionError msg).

(** ** The object store and the state-and-exception monad *)

Abbreviation loc := nat.

(** What an lxml element holds besides its children.  The namespace of the
    tag is kept with the prefix it is bound to, the declarations written on
    the element itself ([el_nsdefs]) and all the declarations in scope at
    the element ([el_scope]). *)
Record node : Type := mk_node {
  el_ns : option string;
  el_prefix : option string;
  el_name : string;
  el_nsdefs : list (string * string);
  el_scope : list (string * string);
  el_attrib : list (string * string);
  el_text : option string
}.

Definition with_text (n : node) (text : option string) : node :=
  {| el_ns := el_ns n; el_prefix := el_prefix n; el_name := el_name n;
     el_nsdefs := el_nsdefs n; el_scope := el_scope n;
     el_attrib := el_attrib n; el_text := text |}.

(** An element refers to its children; an element tree to its root. *)
Inductive object : Type :=
| ObjElement (n : node) (children : list loc)
| ObjElementTree (root : loc).

(** The instance attributes of a [SidecarBuilder]; [None] is Python's
    [None], [Some l] a reference to the object at [l]. *)
Record SidecarBuilder : Type := mk_builder {
  sidecar : option loc;
  ctx : pyval
}.

Record world : Type := mk_world {
  store : list object;
  self : SidecarBuilder
}.

Definition M (A : Type) : Type := world -> result A * world.

Definition raise {A} (e : exn) : M A := fun w => (Raise e, w).
Definition lift {A} (r : result A) : M A := fun w => (r, w).

#[global] Instance M_ret : MRet M := fun A a w => (Ok a, w).
#[global] Instance M_bind : MBind M := fun A B k m w =>
  match m w with
  | (Ok a, w') => k a w'
  | (Raise e, w') => (Raise e, w')
  end.

(** [for x in xs: body(x)] *)
Fixpoint for_each {A} (xs : list A) (body : A -> M unit) : M unit :=
  match xs with
  | [] => mret tt
  | x :: xs' => body x;; for_each xs' body
  end.

(** [assert cond, msg] *)
Definition assert_ (cond : bool) (msg : string) : M unit :=
  if cond then mret tt else raise (AssertionError msg).

(** [if cond: body] *)
Definition when (cond : bool) (body : M unit) : M unit :=
  if cond then body else mret tt.

Definition alloc (o : object) : M loc :=
  fun w => (Ok (length (store w)),
            {| store := store w ++ [o]; self := self w |}).

(** The model is total: a state of the store that no run of the program
    reaches (a dangling reference, a reference to an object of the wrong
    class) is reported with this exception. *)
Definition unreachable {A} (what : string) : M A :=
  raise (TypeError ("unreachable store state: " +:+ what)).

Definition get_element (l : loc) : M (node * list loc) :=
  fun w =>
    match store w !! l with
    | Some (ObjElement n children) => (Ok (n, children), w)
    | _ => unreachable "not an element" w
    end.

Definition put_element (l : loc) (n : node) (children : list loc) : M unit :=
  fun w => (Ok tt, {| store := <[l := ObjElement n children]> (store w);
                      self := self w |}).

Definition get_self : M SidecarBuilder := fun w => (Ok (self w), w).
Definition put_self (b : SidecarBuilder) : M unit :=
  fun w => (Ok tt, {| store := store w; self := b |}).

(** ** lxml.etree *)

(** The checks that lxml delegates to libxml2 and its choice of a prefix for
    a namespace with no declaration in scope are parameters of the model;
    what is known of them is that they accept the names, URIs and values
    the builder writes itself. *)
Class Lxml : Type := {
  xml_name_ok : string -> bool;
  xml_uri_ok : string -> bool;
  xml_text_ok : string -> bool;
  new_prefix : list (string * string) -> string -> string;
  accepts_Sidecar : xml_name_ok "Sidecar" = true;
  accepts_Dynamic : xml_name_ok "Dynamic" = true;
  accepts_Technical : xml_name_ok "Technical" = true;
  accepts_version : xml_name_ok "version" = true;
  accepts_mhs : xml_name_ok "mhs" = true;
  accepts_mh : xml_name_ok "mh" = true;
  accepts_19_4 : xml_text_ok "19.4" = true;
  accepts_mhs_uri :
    xml_uri_ok "https://zeticon.mediahaven.com/metadata/19.4/mhs/" = true;
  accepts_mh_uri :
    xml_uri_ok "https://zeticon.mediahaven.com/metadata/19.4/mh/" = true
}.

Module etree.
Section etree.
Context `{Lxml}.

(** [s] cut at its first closing brace. *)
Fixpoint split_brace (s : string) : option (string * string) :=
  match s with
  | EmptyString => None
  | String c s' =>
      if Ascii.eqb c "}"%char then Some (EmptyString, s')
      else match split_brace s' with
           | Some (ns, name) => Some (String c ns, name)
           | None => None
           end
  end.

(** A tag in Clark notation, [{uri}local] or [local], read as lxml reads
    it. *)
Definition getNsTag (tag : string) : result (option string * string) :=
  match tag with
  | EmptyString => Raise (ValueError "Empty tag name")
  | String c rest =>
      if Ascii.eqb c "{"%char then
        match split_brace rest with
        | None => Raise (ValueError "Invalid tag name")
        | Some (ns, name) =>
            if String.eqb name "" then Raise (ValueError "Empty tag name")
            else Ok (if String.eqb ns "" then None else Some ns, name)
        end
      else Ok (None, tag)
  end.

Definition valid_or_raise (ok : bool) (msg : string) : M unit :=
  if ok then mret tt else raise (ValueError msg).

(** The namespace a prefix is bound to, the nearest declaration first. *)
Fixpoint href_of (scope : list (string * string)) (prefix : string)
  : option string :=
  match scope with
  | [] => None
  | (p, h) :: scope' => if String.eqb p prefix then Some h else href_of scope' prefix
  end.

(** The nearest prefix in scope that is bound to [href] and not shadowed. *)
Definition prefix_of (scope : list (string * string)) (href : string)
  : option string :=
  fst <$> List.find (fun ph => String.eqb ph.2 href
                               && bool_decide (href_of scope ph.1 = Some href))
                    scope.

(** The prefix of a tag in namespace [ns], with the declaration that has to
    be written on the element when none is in scope. *)
Definition bind_ns (scope : list (string * string)) (ns : option string)
  : option string * list (string * string) :=
  match ns with
  | None => (None, [])
  | Some href =>
      match prefix_of scope href with
      | Some p => (Some p, [])
      | None => let p := new_prefix scope href in (Some p, [(p, href)])
      end
  end.

(** A new element with tag [{ns}name]: [scope] is what is in scope where it
    is made, [declared] what its own [nsmap] declares. *)
Definition new_node (scope declared : list (string * string))
    (ns : option string) (name : string) (attrib : list (string * string))
  : node :=
  let '(prefix, extra) := bind_ns scope ns in
  {| el_ns := ns; el_prefix := prefix; el_name := name;
     el_nsdefs := declared ++ extra; el_scope := extra ++ scope;
     el_attrib := attrib; el_text := None |}.

Definition check_ns (ns : option string) : M unit :=
  match ns with
  | None => mret tt
  | Some href => valid_or_raise (xml_uri_ok href) "Invalid namespace URI"
  end.

(** [etree.Element(tag, nsmap=nsmap, **attrib)] *)
Definition Element (tag : string) (attrib nsmap : list (string * string))
  : M loc :=
  '(ns, name) ← lift (getNsTag tag);
  valid_or_raise (xml_name_ok name) "Invalid tag name";;
  for_each nsmap (fun ph =>
    valid_or_raise (xml_uri_ok ph.2) "Invalid namespace URI";;
    valid_or_raise (xml_name_ok ph.1) "Invalid namespace prefix");;
  check_ns ns;;
  for_each attrib (fun kv =>
    valid_or_raise (xml_name_ok kv.1) "Invalid attribute name";;
    valid_or_raise (xml_text_ok kv.2) "All strings must be XML compatible");;
  alloc (ObjElement (new_node nsmap nsmap ns name attrib) []).

(** [etree.SubElement(parent, tag)]: a new element, appended to the children
    of [parent]. *)
Definition SubElement (parent : loc) (tag : string) : M loc :=
  '(p, children) ← get_element parent;
  '(ns, name) ← lift (getNsTag tag);
  valid_or_raise (xml_name_ok name) "Invalid tag name";;
  check_ns ns;;
  child ← alloc (ObjElement (new_node (el_scope p) [] ns name []) []);
  put_element parent p (children ++ [child]);;
  mret child.

(** [element.text = val] *)
Definition set_text (l : loc) (val : pyval) : M unit :=
  '(n, children) ← get_element l;
  text ← match val with
         | VNone => mret None
         | VStr s =>
             valid_or_raise (xml_text_ok s) "All strings must be XML compatible";;
             mret (Some s)
         | _ => raise (TypeError "Argument must be bytes or unicode")
         end;
  put_element l (with_text n text) children.

(** [etree.ElementTree(root)] *)
Definition ElementTree (root : loc) : M loc :=
  _ ← get_element root;
  alloc (ObjElementTree root).

End etree.
End etree.

(** ** Serialisation *)

(** The tree below a reference, read out of the store. *)
Inductive xml : Type :=
| XNode (n : node) (kids : list xml).

Definition xml_node (t : xml) : node := let 'XNode n _ := t in n.
Definition xml_kids (t : xml) : list xml := let 'XNode _ kids := t in kids.

(** Reading takes one unit of [fuel] per level; the store never holds more
    levels than objects. *)
Fixpoint read_tree (fuel : nat) (st : list object) (l : loc) : option xml :=
  match fuel with
  | O => None
  | S fuel' =>
      match st !! l with
      | Some (ObjElement n children) =>
          kids ← mapM (read_tree fuel' st) children;
          Some (XNode n kids)
      | _ => None
      end
  end.

(** The root element behind a reference to an element or an element tree. *)
Definition root_of (st : list object) (l : loc) : loc :=
  match st !! l with
  | Some (ObjElementTree r) => r
  | _ => l
  end.

Fixpoint height (t : xml) : nat :=
  let 'XNode _ kids := t in S (foldr (fun k acc => Nat.max (height k) acc) 0 kids).

Fixpoint size (t : xml) : nat :=
  let 'XNode _ kids := t in S (foldr (fun k acc => size k + acc) 0 kids).

(** [repr st lo l t]: the objects of [st] at and below [l], all of them at
    [lo] or later in the store, make up the tree [t]. *)
Inductive repr (st : list object) (lo : nat) : loc -> xml -> Prop :=
| repr_node (l : loc) (n : node) (children : list loc) (kids : list xml) :
    lo <= l ->
    st !! l = Some (ObjElement n children) ->
    Forall2 (repr st lo) children kids ->
    repr st lo l (XNode n kids).

(** Induction on a tree with the hypothesis for every child. *)
Section xml_induction.
Variable P : xml -> Prop.
Hypothesis Hnode : forall n kids, Forall P kids -> P (XNode n kids).

Fixpoint xml_nested_ind (t : xml) : P t :=
  let 'XNode n kids := t in
  Hnode n kids
    ((fix all (ks : list xml) : Forall P ks :=
        match ks with
        | [] => List.Forall_nil P
        | k :: ks' => List.Forall_cons P k ks' (xml_nested_ind k) (all ks')
        end) kids).
End xml_induction.

Module Output.

Fixpoint string_mem (c : ascii) (s : string) : bool :=
  match s with
  | EmptyString => false
  | String c' s' => Ascii.eqb c c' || string_mem c s'
  end.

(** Character data: the markup characters and the carriage return are
    written as references. *)
Fixpoint escape_text (s : string) : string :=
  match s with
  | EmptyString => EmptyString
  | String c s' =>
      (if Ascii.eqb c "<"%char then "&lt;"
       else if Ascii.eqb c ">"%char then "&gt;"
       else if Ascii.eqb c "&"%char then "&amp;"
       else if Ascii.eqb c "013"%char then "&#13;"
       else String c EmptyString) +:+ escape_text s'
  end.

(** An attribute value, which is written between double quotes. *)
Fixpoint escape_attr (s : string) : string :=
  match s with
  | EmptyString => EmptyString
  | String c s' =>
      (if Ascii.eqb c "<"%char then "&lt;"
       else if Ascii.eqb c ">"%char then "&gt;"
       else if Ascii.eqb c "&"%char then "&amp;"
       else if Ascii.eqb c "034"%char then "&quot;"
       else if Ascii.eqb c "009"%char then "&#9;"
       else if Ascii.eqb c "010"%char then "&#10;"
       else if Ascii.eqb c "013"%char then "&#13;"
       else String c EmptyString) +:+ escape_attr s'
  end.

Fixpoint escape_dq (s : string) : string :=
  match s with
  | EmptyString => EmptyString
  | String c s' =>
      (if Ascii.eqb c "034"%char then "&quot;" else String c EmptyString)
      +:+ escape_dq s'
  end.

(** A namespace URI: between double quotes unless it holds one, then
    between single quotes unless it holds one of those too. *)
Definition quoted (s : string) : string :=
  if string_mem "034"%char s then
    if string_mem "'"%char s then dq +:+ escape_dq s +:+ dq
    else "'" +:+ s +:+ "'"
  else dq +:+ s +:+ dq.

Definition qname (e : node) : string :=
  match el_prefix e with
  | Some p => if String.eqb p "" then el_name e else p +:+ ":" +:+ el_name e
  | None => el_name e
  end.

Definition write_nsdef (ph : string * string) : string :=
  (if String.eqb ph.1 "" then " xmlns=" else " xmlns:" +:+ ph.1 +:+ "=")
  +:+ quoted ph.2.

Definition write_attr (kv : string * string) : string :=
  " " +:+ kv.1 +:+ "=" +:+ dq +:+ escape_attr kv.2 +:+ dq.

Definition concat_map {A} (f : A -> string) (xs : list A) : string :=
  foldr (fun x acc => f x +:+ acc) "" xs.

Definition start_tag (e : node) : string :=
  "<" +:+ qname e +:+ concat_map write_nsdef (el_nsdefs e)
      +:+ concat_map write_attr (el_attrib e).

Fixpoint indent (level : nat) : string :=
  match level with
  | O => ""
  | S n => "  " +:+ indent n
  end.

Definition newline : string := String "010"%char EmptyString.

Definition nl (format : bool) : string := if format then newline else "".
Definition ind (format : bool) (level : nat) : string :=
  if format then indent level else "".

(** An element at nesting depth [level].  With [format] on, the children of
    an element are written one per line, indented, unless the element has
    text of its own, which turns formatting off below it. *)
Fixpoint write_node (format : bool) (level : nat) (t : xml) : string :=
  let 'XNode e kids := t in
  let format' := format && negb (bool_decide (is_Some (el_text e))) in
  match el_text e, kids with
  | None, [] => start_tag e +:+ "/>"
  | _, _ =>
      start_tag e +:+ ">" +:+ nl format'
      +:+ from_option escape_text "" (el_text e)
      +:+ (fix write_list (ts : list xml) : string :=
             match ts with
             | [] => ""
             | t' :: ts' =>
                 ind format' (S level) +:+ write_node format' (S level) t'
                 +:+ nl format' +:+ write_list ts'
             end) kids
      +:+ ind format' level +:+ "</" +:+ qname e +:+ ">"
  end.

Definition write_declaration (encoding : string) : string :=
  "<?xml version='1.0' encoding='" +:+ encoding +:+ "'?>" +:+ newline.

Definition write_document (pretty : bool) (encoding : string)
    (xml_declaration : bool) (t : xml) : string :=
  (if xml_declaration then write_declaration encoding else "")
  +:+ write_node pretty 0 t
  +:+ nl pretty.

End Output.

(** [etree.tostring(element_or_tree, pretty_print=..., encoding=...,
    xml_declaration=...)] for a byte encoding; the builder passes UTF-8, and
    the strings of the model already are UTF-8. *)
Definition etree_tostring (element_or_tree : option loc) (pretty_print : bool)
    (encoding : string) (xml_declaration : bool) : M (list byte) :=
  fun w =>
    match element_or_tree with
    | None => raise (TypeError "Type 'NoneType' cannot be serialized.") w
    | Some l =>
        match read_tree (length (store w)) (store w) (root_of (store w) l) with
        | Some t =>
            (Ok (list_byte_of_string
                   (Output.write_document pretty_print encoding xml_declaration t)),
             w)
        | None => unreachable "not a tree" w
        end
    end.

(** [b.decode('utf-8')] on well-formed UTF-8: the [str] with those bytes. *)
Definition decode_utf8 (b : list byte) : string := string_of_list_byte b.

(** ** class SidecarBuilder *)

Section SidecarBuilder.
Context `{Lxml}.

Definition ALLOWED_NODES : list string := ["Dynamic"; "Technical"].
Definition XML_ENCODING : string := "UTF-8".
Definition MHS_VERSION : string := "19.4".
Definition MH_NAMESPACES : list (string * string) :=
  [("mhs", "https://zeticon.mediahaven.com/metadata/" +:+ MHS_VERSION +:+ "/mhs/");
   ("mh", "https://zeticon.mediahaven.com/metadata/" +:+ MHS_VERSION +:+ "/mh/")].

(** [self.MH_NAMESPACES[prefix]] for the two prefixes the class uses. *)
Definition mhs_uri : string := default "" (etree.href_of MH_NAMESPACES "mhs").
Definition mh_uri : string := default "" (etree.href_of MH_NAMESPACES "mh").

(** ["{%s}%s" % (ns, name)] *)
Definition clark (ns name : string) : string := "{" +:+ ns +:+ "}" +:+ name.

Definition SidecarBuilder_init (ctx : pyval) : M unit :=
  put_self {| sidecar := None; ctx := ctx |}.

Definition check_metadata_dict (metadata_dict : dict) : M unit :=
  for_each (keys metadata_dict) (fun k =>
    assert_ (bool_decide (k ∈ ALLOWED_NODES))
            ("Unknown sidecar node: " +:+ dq +:+ k +:+ dq)).

Definition build (metadata_dict : dict) : M unit :=
  check_metadata_dict metadata_dict;;
  root ← etree.Element (clark mhs_uri "Sidecar")
                       [("version", MHS_VERSION)] MH_NAMESPACES;
  doc ← etree.ElementTree root;
  for_each (keys metadata_dict) (fun top =>
    node ← etree.SubElement root (clark mhs_uri top);
    fields ← lift (getitem (VDict metadata_dict) top);
    items ← lift (dict_of fields "items");
    for_each items (fun sub_val =>
      let '(sub, val) := sub_val in
      when (String.eqb top "Technical")
        (e ← etree.SubElement node (clark mh_uri sub);
         etree.set_text e val);;
      when (String.eqb top "Dynamic")
        (e ← etree.SubElement node sub;
         etree.set_text e val)));;
  b ← get_self;
  put_self {| sidecar := Some doc; ctx := ctx b |}.

Definition to_bytes (pretty : bool) : M (list byte) :=
  b ← get_self;
  etree_tostring (sidecar b) pretty XML_ENCODING true.

Definition to_string (pretty : bool) : M string :=
  b ← get_self;
  bs ← etree_tostring (sidecar b) pretty XML_ENCODING true;
  mret (decode_utf8 bs).

(** *** The document a builder holds, and the mappings of the data model *)

(** The tree behind [self.sidecar], as [etree.tostring] reads it. *)
Definition held_document (w : world) : option xml :=
  l ← sidecar (self w);
  read_tree (length (store w)) (store w) (root_of (store w) l).

(** A field name that lxml takes as the local name of an element: not
    empty, not in Clark notation, and accepted as an XML name. *)
Definition plain_name_ok (sub : string) : bool :=
  negb (String.eqb sub "") && negb (String.prefix "{" sub) && xml_name_ok sub.

Definition valid_field (f : string * pyval) : bool :=
  match f.2 with
  | VStr val => plain_name_ok f.1 && xml_text_ok val
  | _ => false
  end.

Definition valid_category (kv : string * pyval) : bool :=
  bool_decide (kv.1 ∈ ALLOWED_NODES)
  && match kv.2 with
     | VDict fields => forallb valid_field fields
     | _ => false
     end.

(** A metadata mapping of the data model: a dict from the categories to
    dicts from field names to strings, which lxml can write. *)
Definition valid_metadata (metadata_dict : dict) : bool :=
  forallb valid_category metadata_dict
  && bool_decide (NoDup (keys metadata_dict)).

(** A builder that has been constructed and on which no [build] has
    returned since. *)
Inductive never_built : world -> Prop :=
| never_built_init (ctx : pyval) (w : world) :
    never_built (SidecarBuilder_init ctx w).2
| never_built_failed (metadata_dict : dict) (w : world) :
    never_built w ->
    (exists e, (build metadata_dict w).1 = Raise e) ->
    never_built (build metadata_dict w).2
| never_built_to_bytes (pretty : bool) (w : world) :
    never_built w -> never_built (to_bytes pretty w).2
| never_built_to_string (pretty : bool) (w : world) :
    never_built w -> never_built (to_string pretty w).2.

(** *** The tree that [build] makes, as a function of the mapping

    These follow [build] line by line: the root from [etree.Element], one
    [etree.SubElement] of the root per key, one [etree.SubElement] of that
    per item with its [text] set. *)
Definition root_node : node :=
  etree.new_node MH_NAMESPACES MH_NAMESPACES (Some mhs_uri) "Sidecar"
                 [("version", MHS_VERSION)].

Definition category_node (top : string) : node :=
  etree.new_node (el_scope root_node) [] (Some mhs_uri) top [].

Definition field_ns (top : string) : option string :=
  if String.eqb top "Technical" then Some mh_uri else None.

Definition text_of (val : pyval) : option string :=
  match val with VStr s => Some s | _ => None end.

Definition field_node (top : string) (f : string * pyval) : node :=
  with_text (etree.new_node (el_scope (category_node top)) [] (field_ns top) f.1 [])
            (text_of f.2).

Definition field_tree (top : string) (f : string * pyval) : xml :=
  XNode (field_node top f) [].

Definition fields_of (metadata_dict : dict) (top : string) : dict :=
  match dict_get metadata_dict top with
  | Some (VDict fields) => fields
  | _ => []
  end.

Definition category_tree (metadata_dict : dict) (top : string) : xml :=
  XNode (category_node top) (field_tree top <$> fields_of metadata_dict top).

Definition document_of (metadata_dict : dict) : xml :=
  XNode root_node (category_tree metadata_dict <$> keys metadata_dict).

(** *** The exceptions of the builder *)

Definition unknown_node (k : string) : exn :=
  AssertionError ("Unknown sidecar node: " +:+ dq +:+ k +:+ dq).

Definition none_not_serialized : exn :=
  TypeError "Type 'NoneType' cannot be serialized.".

(** What the loop over the keys needs of each of them. *)
Definition category_ready (metadata_dict : dict) (top : string) : Prop :=
  top ∈ ALLOWED_NODES
  /\ exists fields, dict_get metadata_dict top = Some (VDict fields)
                    /\ Forall (fun f => valid_field f = true) fields.

(** *** What a run leaves alone

    [steady lo w w']: from [w] to [w'] the builder's attributes and the
    objects before [lo] are left as they were, and no object is dropped. *)
Definition steady (lo : nat) (w w' : world) : Prop :=
  self w' = self w
  /\ length (store w) <= length (store w')
  /\ forall l, l < lo -> store w' !! l = store w !! l.

(** [keeps lo m Q]: run in a store of at least [lo] objects, [m] is steady
    whether it returns or raises, and what it returns satisfies [Q]. *)
Definition keeps {A} (lo : nat) (m : M A) (Q : A -> Prop) : Prop :=
  forall w, lo <= length (store w) ->
    steady lo w (m w).2
    /\ match (m w).1 with Ok a => Q a | Raise _ => True end.

(** [installs lo m]: [m] leaves the objects before [lo] alone; when it
    raises the builder's attributes are as they were, and when it returns
    [self.sidecar] refers to an object made at [lo] or later. *)
Definition installs {A} (lo : nat) (m : M A) : Prop :=
  forall w, lo <= length (store w) ->
    length (store w) <= length (store (m w).2)
    /\ (forall l, l < lo -> store (m w).2 !! l = store w !! l)
    /\ match (m w).1 with
       | Ok _ => exists doc, lo <= doc
                   /\ self (m w).2 = {| sidecar := Some doc; ctx := ctx (self w) |}
       | Raise _ => self (m w).2 = self w
       end.

(** *** The shape of the store

    Children are made after their parent, so the references of an element
    point forward in the store, to elements: that is what makes the store
    below a root a tree that [read_tree] reads with the fuel it is given. *)
Definition is_element (st : list object) (l : loc) : Prop :=
  exists n cs, st !! l = Some (ObjElement n cs).

Definition forward (lo : nat) (st : list object) : Prop :=
  forall l n cs, lo <= l -> st !! l = Some (ObjElement n cs) ->
    Forall (fun c => l < c /\ is_element st c) cs.

(** [grows lo w w']: no object is dropped, elements stay elements, element
    trees stay as they are, and references keep pointing forward. *)
Definition grows (lo : nat) (w w' : world) : Prop :=
  length (store w) <= length (store w')
  /\ (forall l, is_element (store w) l -> is_element (store w') l)
  /\ (forall l r, store w !! l = Some (ObjElementTree r) ->
                  store w' !! l = Some (ObjElementTree r))
  /\ (forward lo (store w) -> forward lo (store w')).

Definition tidy {A} (lo : nat) (m : M A) : Prop :=
  forall w, grows lo w (m w).2.

(** *** Reading the mapping back

    The names and texts of the elements below the root, as a mapping: a
    text is a string value, no text is [None]. *)
Definition field_of (field : xml) : string * pyval :=
  (el_name (xml_node field), from_option VStr VNone (el_text (xml_node field))).

Definition category_of (category : xml) : string * pyval :=
  (el_name (xml_node category), VDict (field_of <$> xml_kids category)).

Definition mapping_of (t : xml) : dict := category_of <$> xml_kids t.

End SidecarBuilder.

(** ** class FTP

    The class talks to two libraries: [urllib.parse] for the host and
    [ftplib] for the session.  What they answer is a parameter of the model:
    [urlparse_netloc] is [urlparse(host).netloc], and [server] says, for the
    calls made to [ftplib] so far and the next one, whether that one raises.
    Their exceptions are the values of [E].  A run is followed by the list of
    the calls it has made. *)
Module Ftp.

Inductive call : Type :=
| Connect (host : string) (user passwd : pyval)
| Enter
| Cwd (path : string)
| Storbinary (cmd : string) (content : list byte)
| Exit.

Section Ftp.
Variable E : Type.
Variable urlparse_netloc : string -> E + string.
Variable server : list call -> call -> option E.

Inductive failure : Type :=
| PyError (e : exn)
| LibError (e : E).

Inductive outcome (A : Type) : Type :=
| Done (a : A)
| Failed (f : failure).
Arguments Done {A} a.
Arguments Failed {A} f.

Definition F (A : Type) : Type := list call -> outcome A * list call.

(** The attributes of an [FTP] object; [self.conn] is the session that the
    calls go to.  [ftp_ctx] is the [config] of the context object, [None]
    when no context was given. *)
Record FTP : Type := mk_FTP {
  ftp_ctx : option pyval;
  ftp_host : string
}.

(** A call to [ftplib]. *)
Definition perform (c : call) : F unit :=
  fun calls =>
    (match server calls c with
     | None => Done tt
     | Some e => Failed (LibError e)
     end,
     calls ++ [c]).

(** [FTP.__set_host] *)
Definition set_host (host : string) : F string :=
  fun calls =>
    (match urlparse_netloc host with
     | inl e => Failed (LibError e)
     | inr netloc => Done netloc
     end,
     calls).

(** The two lookups of [FTP.__connect] in [self.ctx.config]. *)
Definition credentials (ctx : option pyval) : result (pyval * pyval) :=
  match ctx with
  | None => Raise (AttributeError "'NoneType' object has no attribute 'config'")
  | Some config =>
      rbind (getitem config "mediahaven") (fun mh =>
      rbind (getitem mh "ftp") (fun ftp =>
      rbind (getitem ftp "user") (fun ftp_user =>
      rbind (getitem config "mediahaven") (fun mh' =>
      rbind (getitem mh' "ftp") (fun ftp' =>
      rbind (getitem ftp' "passwd") (fun ftp_passwd =>
        Ok (ftp_user, ftp_passwd)))))))
  end.

(** [FTP.__connect]: what [BuiltinFTP(...)] raises is raised again. *)
Definition connect (ctx : option pyval) (host : string) : F unit :=
  fun calls =>
    match credentials ctx with
    | Raise e => (Failed (PyError e), calls)
    | Ok (ftp_user, ftp_passwd) => perform (Connect host ftp_user ftp_passwd) calls
    end.

(** [FTP.__init__] *)
Definition init (host : string) (ctx : option pyval) : F FTP :=
  fun calls =>
    match set_host host calls with
    | (Failed f, calls1) => (Failed f, calls1)
    | (Done netloc, calls1) =>
        match connect ctx netloc calls1 with
        | (Failed f, calls2) => (Failed f, calls2)
        | (Done _, calls2) => (Done {| ftp_ctx := ctx; ftp_host := netloc |}, calls2)
        end
    end.

(** [FTP.put].  The [with] statement enters the session, runs the body and
    leaves the session whether the body has raised or not; what leaving
    raises replaces what the body raised ([ftplib]'s [__exit__] returns
    [None], so that it hides no exception). *)
Definition put (self : FTP) (content_bytes : list byte)
    (destination_path destination_filename : string) : F unit :=
  fun calls =>
    match perform Enter calls with
    | (Failed f, calls1) => (Failed f, calls1)
    | (Done _, calls1) =>
        let '(body, calls2) :=
          match perform (Cwd destination_path) calls1 with
          | (Failed f, calls2) => (Failed f, calls2)
          | (Done _, calls2) =>
              perform (Storbinary ("STOR " +:+ destination_filename) content_bytes)
                      calls2
          end in
        match perform Exit calls2 with
        | (Failed f, calls3) => (Failed f, calls3)
        | (Done _, calls3) => (body, calls3)
        end
    end.

End Ftp.

Arguments Done {E A} a.
Arguments Failed {E A} f.
Arguments PyError {E} e.
Arguments LibError {E} e.

End Ftp.

(** ** An instance of the checks, for running the model

    The ASCII part of libxml2's rules: a name starts with a letter or an
    underscore and goes on with letters, digits, [.], [-] and [_]; a URI has
    no blank, brace or control character; text has no control character but
    tab, line feed and carriage return.  A fresh prefix is the first of
    [ns0], [ns1], ... that is not bound in scope.

    For [str.lower], the function that lowers the ASCII letters and leaves
    every other byte as it is: it is [str.lower] on the ASCII strings, which
    is where the model is run. *)
Module Reference.

Definition is_letter (n : nat) : bool :=
  ((65 <=? n) && (n <=? 90) || (97 <=? n) && (n <=? 122))%nat.
Definition is_digit (n : nat) : bool := ((48 <=? n) && (n <=? 57))%nat.

Definition name_start (c : ascii) : bool :=
  let n := nat_of_ascii c in is_letter n || (n =? 95)%nat.
Definition name_char (c : ascii) : bool :=
  let n := nat_of_ascii c in
  is_letter n || is_digit n || (n =? 95)%nat || (n =? 45)%nat || (n =? 46)%nat.

Fixpoint all_chars (p : ascii -> bool) (s : string) : bool :=
  match s with
  | EmptyString => true
  | String c s' => p c && all_chars p s'
  end.

Definition name_ok (s : string) : bool :=
  match s with
  | EmptyString => false
  | String c s' => name_start c && all_chars name_char s'
  end.

Definition uri_char (c : ascii) : bool :=
  let n := nat_of_ascii c in
  ((33 <=? n) && (n <=? 126) && negb (n =? 123) && negb (n =? 125))%nat.
Definition uri_ok (s : string) : bool :=
  negb (String.eqb s "") && all_chars uri_char s.

Definition text_char (c : ascii) : bool :=
  let n := nat_of_ascii c in
  ((32 <=? n) || (n =? 9) || (n =? 10) || (n =? 13))%nat.
Definition text_ok (s : string) : bool := all_chars text_char s.

Definition fresh_prefix (scope : list (string * string)) (href : string)
  : string :=
  let candidates := (fun k : nat => "ns" +:+ pretty k) <$> seq 0 (S (length scope)) in
  default "ns0"
    (List.find (fun p => bool_decide (etree.href_of scope p = None)) candidates).

#[export] Instance lxml : Lxml := {|
  xml_name_ok := name_ok;
  xml_uri_ok := uri_ok;
  xml_text_ok := text_ok;
  new_prefix := fresh_prefix;
  accepts_Sidecar := eq_refl;
  accepts_Dynamic := eq_refl;
  accepts_Technical := eq_refl;
  accepts_version := eq_refl;
  accepts_mhs := eq_refl;
  accepts_mh := eq_refl;
  accepts_19_4 := eq_refl;
  accepts_mhs_uri := eq_refl;
  accepts_mh_uri := eq_refl
|}.

#[export] Instance unicode : Unicode.
Proof.
  refine {| lower := ascii_lower; lower_idemp := _; lower_isascii := _ |}.
  - intros s. induction s as [|c s IH]; simpl; [reflexivity|].
    rewrite IH. f_equal. by destruct c as [[] [] [] [] [] [] [] []].
  - reflexivity.
Defined.

End Reference.


(** Inputs on which the statements below are run. *)
Module Samples.

Definition fresh : world :=
  {| store := []; self := {| sidecar := None; ctx := VNone |} |}.

Definition metadata : dict :=
  [("Dynamic", VDict [("title", VStr "Foo"); ("note", VStr "")]);
   ("Technical", VDict [("md5", VStr "abc123")])].

Definition only_technical : dict := [("Technical", VDict [("md5", VStr "abc123")])].
Definition only_dynamic : dict := [("Dynamic", VDict [("title", VStr "Foo")])].
Definition empty_category : dict :=
  [("Technical", VDict [("md5", VStr "abc123")]); ("Dynamic", VDict [])].
Definition unknown_category : dict :=
  [("Dynamic", VDict [("title", VStr "Foo")]); ("Descriptive", VDict [])].
Definition malformed_value : dict :=
  [("Dynamic", VDict [("title", VStr "Foo")]); ("Technical", VDict [("size", VInt 3)])].
Definition malformed_category : dict :=
  [("Dynamic", VDict [("title", VStr "Foo")]); ("Technical", VStr "md5")].

Definition spaced_field : dict :=
  [("Dynamic", VDict [("file size", VStr "12")])].
Definition empty_field : dict :=
  [("Technical", VDict [("", VStr "abc123")])].
Definition clark_field : dict :=
  [("Dynamic", VDict [("{urn:x}title", VStr "Foo")])].
Definition empty_and_unknown : dict :=
  [("Dynamic", VDict []); ("Descriptive", VDict [("title", VStr "Foo")])].

(** An S3 event with one record, of the shape the tests use. *)
Definition record : pyval :=
  VDict [("eventName", VStr "ObjectCreated:Put");
         ("s3",
          VDict [("domain", VDict [("name", VStr "s3")]);
                 ("bucket",
                  VDict [("name", VStr "MAM_HighresVideo");
                         ("metadata", VDict [("tenant", VStr "OR-rf5kf25")])]);
                 ("object",
                  VDict [("key", VStr "a.MXF");
                         ("metadata",
                          VDict [("md5sum", VStr "7ef01fd710fec9a175d28c4a31dc49a2")])])])].

Definition event : pyval := VDict [("Records", VList [record])].
Definition event_two_records : pyval :=
  VDict [("source", VStr "s3"); ("Records", VList [record; VNone])].
Definition event_no_records : pyval := VDict [("Records", VList [])].

(** The builder after [build] on [metadata]. *)
Definition built : world := (@build Reference.lxml metadata fresh).2.

End Samples.

(** * Properties *)

(** ** The event-field extractor *)

Section extractor.
Context `{Unicode}.

Lemma dict_mem_get (d : dict) (k : string) :
  dict_mem k d = true <-> is_Some (dict_get d k).
Proof.
  unfold dict_mem, keys. rewrite bool_decide_eq_true.
  induction d as [|[k' v] d IH]; simpl.
  - split; [intros Hin; inversion Hin | intros [? ?]; discriminate].
  - rewrite elem_of_cons, IH. destruct (String.eqb_spec k' k) as [->|Hne].
    + split; eauto.
    + split; [intros [->|?]; [congruence | done] | by right].
Qed.

Lemma dict_mem_None (d : dict) (k : string) :
  dict_get d k = None -> dict_mem k d = false.
Proof.
  intros Hnone. destruct (dict_mem k d) eqn:Hmem; [|done].
  apply dict_mem_get in Hmem as [v Hv]. congruence.
Qed.

Lemma dict_mem_Some (d : dict) (k : string) (v : pyval) :
  dict_get d k = Some v -> dict_mem k d = true.
Proof. intros Hv. apply dict_mem_get. eauto. Qed.

(** A candidate that is present is returned if the candidates before it are
    absent. *)
Lemma try_keys_first (before after : list string) (k : string)
    (d : dict) (v : pyval) :
  Forall (fun k' => dict_get d k' = None) before ->
  dict_get d k = Some v ->
  try_keys (before ++ k :: after) (VDict d) = Ok v.
Proof.
  intros Habsent Hv. induction Habsent as [|k' before Hk' _ IH]; simpl.
  - by rewrite (dict_mem_Some _ _ _ Hv), Hv.
  - by rewrite (dict_mem_None _ _ Hk').
Qed.

Lemma try_keys_none (candidates : list string) (d : dict) :
  Forall (fun k => dict_get d k = None) candidates ->
  try_keys candidates (VDict d) = Ok (VStr "").
Proof.
  induction 1 as [|k ks Hk _ IH]; simpl; [done|].
  by rewrite (dict_mem_None _ _ Hk).
Qed.

(** C5.  For every object-metadata record, the checksum lookup returns the
    value under the first of the candidate keys ["x-md5sum-meta"],
    ["md5sum"], ["x-amz-meta-md5sum"] that the record has, and the empty
    string when it has none of them; a record that only has ["md5sum"] set
    to ["7ef01fd710fec9a175d28c4a31dc49a2"] yields that value. *)
Theorem try_to_find_md5_first_present (object_metadata : dict) :
  POSSIBLE_KEYS = ["x-md5sum-meta"; "md5sum"; "x-amz-meta-md5sum"]
  /\ (forall (i : nat) (k : string) (v : pyval),
        POSSIBLE_KEYS !! i = Some k ->
        dict_get object_metadata k = Some v ->
        (forall (j : nat) (k' : string),
            j < i -> POSSIBLE_KEYS !! j = Some k' ->
            dict_get object_metadata k' = None) ->
        try_to_find_md5 (VDict object_metadata) = Ok v)
  /\ ((forall k, k ∈ POSSIBLE_KEYS -> dict_get object_metadata k = None) ->
      try_to_find_md5 (VDict object_metadata) = Ok (VStr ""))
  /\ try_to_find_md5 (VDict [("md5sum", VStr "7ef01fd710fec9a175d28c4a31dc49a2")])
     = Ok (VStr "7ef01fd710fec9a175d28c4a31dc49a2").
Proof.
  split; [done|]. split; [|split; [|done]].
  - intros i k v Hi Hv Hbefore. unfold try_to_find_md5.
    rewrite <- (take_drop_middle _ _ _ Hi).
    apply try_keys_first; [|done].
    apply Forall_forall. intros k' Hk'.
    apply list_elem_of_lookup in Hk' as [j Hj].
    pose proof (lookup_lt_Some _ _ _ Hj) as Hlt.
    rewrite lookup_take_lt in Hj
      by (rewrite length_take in Hlt; lia).
    rewrite length_take in Hlt.
    apply (Hbefore j); [lia | done].
  - intros Hnone. apply try_keys_none, Forall_forall. done.
Qed.

Example try_to_find_md5_first_present_witness :
  try_to_find_md5
    (VDict [("x-amz-meta-md5sum", VStr "b"); ("md5sum", VStr "a")])
  = Ok (VStr "a")
  /\ try_to_find_md5 (VDict [("etag", VStr "c")]) = Ok (VStr "").
Proof.
  pose proof (try_to_find_md5_first_present
                [("x-amz-meta-md5sum", VStr "b"); ("md5sum", VStr "a")])
    as (_ & Hfirst & _).
  pose proof (try_to_find_md5_first_present [("etag", VStr "c")])
    as (_ & _ & Hnone & _).
  split.
  - apply (Hfirst 1 "md5sum"); [reflexivity | reflexivity |].
    intros [|j] k' Hj Hk'; [|lia].
    injection Hk' as <-. reflexivity.
  - apply Hnone. intros k Hk.
    repeat (apply elem_of_cons in Hk as [->|Hk]; [reflexivity|]).
    inversion Hk.
Defined.

(** The five names are lowered to themselves. *)
Lemma lower_event_key (key : string) : key ∈ event_keys -> lower key = key.
Proof.
  intros Hkey. unfold event_keys in Hkey.
  repeat (apply elem_of_cons in Hkey as [->|Hkey];
          [by rewrite lower_isascii|]).
  inversion Hkey.
Qed.

Lemma no_assertion_rbind {A B} (r : result A) (k : A -> result B) :
  no_assertion r -> (forall a, no_assertion (k a)) -> no_assertion (rbind r k).
Proof.
  destruct r as [a|e]; cbn; intros Hr Hk; [apply Hk|].
  intros msg [= ->]. by apply (Hr msg).
Qed.

Lemma no_assertion_Ok {A} (a : A) : no_assertion (Ok a).
Proof. done. Qed.

Lemma no_assertion_getitem (x : pyval) (k : string) : no_assertion (getitem x k).
Proof.
  intros msg. destruct x as [| | | | |d]; cbn; try done.
  by destruct (dict_get d k).
Qed.

Lemma no_assertion_getitem0 (x : pyval) : no_assertion (getitem0 x).
Proof. intros msg. by destruct x as [| | |[|c s]|[|v xs]|d]. Qed.

Lemma no_assertion_try_keys (candidates : list string) (x : pyval) :
  no_assertion (try_keys candidates x).
Proof.
  induction candidates as [|key rest IH]; cbn; [done|].
  apply no_assertion_rbind; [by destruct x|]. intros d.
  destruct (dict_mem key d); [apply no_assertion_getitem | done].
Qed.

Lemma no_assertion_str_join (sep : string) (parts : list pyval) :
  no_assertion (str_join sep parts).
Proof.
  unfold str_join. apply no_assertion_rbind; [|done].
  induction parts as [|[| | |s| |] ps IH]; cbn; try done.
  by apply no_assertion_rbind.
Qed.

Lemma no_assertion_try_to_find_md5 (x : pyval) :
  no_assertion (try_to_find_md5 x).
Proof. apply no_assertion_try_keys. Qed.

Ltac solve_no_assertion :=
  repeat first
    [ apply no_assertion_getitem | apply no_assertion_getitem0
    | apply no_assertion_try_to_find_md5 | apply no_assertion_str_join
    | apply no_assertion_Ok
    | apply no_assertion_rbind; [|intros ?] ].

(** C9.  For every event record and every field name, the lookup does not
    depend on the case of the name: [get_from_event event name] is
    [get_from_event event (lower name)], where [lower] is [str.lower].  So
    a name that [str.lower] takes to one of [bucket], [object_key], [host],
    [tenant], [md5] passes the check of the name, and a name that it takes
    to none of them is refused by it, with the lowered name in the message,
    whatever the event. *)
Theorem get_from_event_case_insensitive (event : pyval) (name : string) :
  get_from_event event name = get_from_event event (lower name)
  /\ (lower name ∈ event_keys -> no_assertion (get_from_event event name))
  /\ (lower name ∉ event_keys ->
      get_from_event event name
      = Raise (AssertionError ("Unknown key: " +:+ dq +:+ lower name +:+ dq))).
Proof.
  split; [|split].
  - unfold get_from_event. by rewrite lower_idemp.
  - intros Hin. unfold get_from_event. rewrite bool_decide_eq_true_2 by done.
    do 3 (apply no_assertion_rbind; [solve_no_assertion|]; intros ?).
    repeat match goal with
           | |- no_assertion (if ?b then _ else _) => destruct b
           end; solve_no_assertion.
  - intros Hnot. unfold get_from_event. by rewrite bool_decide_eq_false_2.
Qed.

(** Two names that differ in case only get the same answer. *)
Lemma get_from_event_case_variants (event : pyval) (name name' : string) :
  lower name = lower name' ->
  get_from_event event name = get_from_event event name'.
Proof. intros Heq. unfold get_from_event. by rewrite Heq. Qed.

(** A name that is lowered to one of the five names is a way to write that
    name, whether it is made of ASCII letters or not. *)
Lemma get_from_event_variant_of_key (event : pyval) (name key : string) :
  key ∈ event_keys -> lower name = key ->
  get_from_event event name = get_from_event event key.
Proof.
  intros Hkey Hname. apply get_from_event_case_variants.
  by rewrite Hname, lower_event_key.
Qed.

(** The ASCII case variants, on an event of the shape the tests use. *)
Example get_from_event_mixed_case :
  let event :=
    VDict [("Records",
            VList [VDict [("s3",
              VDict [("bucket", VDict [("name", VStr "MAM_HighresVideo")]);
                     ("object",
                      VDict [("key", VStr "a.MXF");
                             ("metadata",
                              VDict [("md5sum",
                                      VStr "7ef01fd710fec9a175d28c4a31dc49a2")])])])]])] in
  get_from_event event "Bucket" = Ok (VStr "MAM_HighresVideo")
  /\ get_from_event event "OBJECT_KEY" = Ok (VStr "a.MXF")
  /\ get_from_event event "Md5" = Ok (VStr "7ef01fd710fec9a175d28c4a31dc49a2")
  /\ get_from_event event "HOST" = Raise (KeyError "domain")
  /\ get_from_event event "Size"
     = Raise (AssertionError ("Unknown key: " +:+ dq +:+ "size" +:+ dq)).
Proof.
  unfold get_from_event.
  rewrite !lower_isascii by reflexivity. repeat split.
Qed.

End extractor.

Lemma get_from_event_case_insensitive_witness :
  @get_from_event Reference.unicode (VDict []) "Bucket" = Raise (KeyError "Records")
  /\ @get_from_event Reference.unicode (VDict []) "ETag"
     = Raise (AssertionError ("Unknown key: " +:+ dq +:+ "etag" +:+ dq)).
Proof.
  pose proof (@get_from_event_case_insensitive Reference.unicode (VDict []) "Bucket")
    as (Heq & _ & _).
  pose proof (@get_from_event_case_insensitive Reference.unicode (VDict []) "ETag")
    as (_ & _ & Hunknown).
  split.
  - rewrite Heq. reflexivity.
  - apply Hunknown. apply (bool_decide_unpack _). reflexivity.
Defined.

(** ** Trees in the store *)

Lemma height_le_size (t : xml) : height t <= size t.
Proof.
  induction t as [n kids IH] using xml_nested_ind. simpl.
  apply le_n_S. induction IH as [|k ks Hk _ IHks]; simpl; lia.
Qed.

Lemma height_kid (n : node) (kids : list xml) (k : xml) :
  k ∈ kids -> S (height k) <= height (XNode n kids).
Proof.
  intros Hin. simpl. apply le_n_S.
  induction Hin as [k ks|k k' ks _ IH]; simpl; lia.
Qed.

(** Reading with enough fuel finds the tree that the store represents. *)
Lemma read_tree_repr (fuel : nat) (st : list object) (lo : nat) :
  forall (l : loc) (t : xml),
    repr st lo l t -> height t <= fuel -> read_tree fuel st l = Some t.
Proof.
  induction fuel as [|fuel IH]; intros l t Hrepr Hfuel.
  - destruct t; simpl in Hfuel; lia.
  - destruct Hrepr as [l n children kids _ Hl Hkids]. simpl. rewrite Hl.
    assert (Hread : mapM (read_tree fuel st) children = Some kids).
    { apply mapM_Some.
      assert (Hbound : forall k, k ∈ kids -> height k <= fuel).
      { intros k Hk. pose proof (height_kid n kids k Hk). lia. }
      clear Hfuel Hl.
      induction Hkids as [|c k cs ks Hck _ IHks]; constructor.
      - apply IH; [done|]. apply Hbound. left.
      - apply IHks. intros k' Hk'. apply Hbound. by right. }
    by rewrite Hread.
Qed.

(** A tree stays where it is when the store changes elsewhere. *)
Lemma repr_frame (st st' : list object) (lo : nat) (t : xml) :
  forall l : loc,
    repr st lo l t ->
    (forall l', lo <= l' -> l' < length st -> st' !! l' = st !! l') ->
    repr st' lo l t.
Proof.
  induction t as [n kids IH] using xml_nested_ind.
  intros l Hrepr Hsame. inversion Hrepr as [l0 n0 children kids0 Hlo Hl Hkids]; subst.
  econstructor; [done | |].
  - rewrite Hsame; [done | done |]. by eapply lookup_lt_Some.
  - clear Hl Hrepr. induction Hkids as [|c k cs ks Hck _ IHks]; constructor.
    + apply Forall_inv in IH. by apply IH.
    + apply IHks. by apply Forall_inv_tail in IH.
Qed.

(** More fuel and a store that has kept its objects read the same tree. *)
Lemma read_tree_mono (fuel : nat) (st st' : list object) :
  forall (fuel' : nat) (l : loc) (t : xml),
    read_tree fuel st l = Some t ->
    fuel <= fuel' ->
    (forall l' o, st !! l' = Some o -> st' !! l' = Some o) ->
    read_tree fuel' st' l = Some t.
Proof.
  induction fuel as [|fuel IH]; intros fuel' l t Hread Hle Hkeep; [done|].
  destruct fuel' as [|fuel']; [lia|]. cbn [read_tree] in *.
  destruct (st !! l) as [[n children|r]|] eqn:Hl; try done.
  rewrite (Hkeep _ _ Hl).
  destruct (mapM (read_tree fuel st) children) as [kids|] eqn:Hkids; [|done].
  simpl in Hread. injection Hread as <-.
  apply mapM_Some in Hkids.
  assert (Hkids' : mapM (read_tree fuel' st') children = Some kids).
  { apply mapM_Some. eapply Forall2_impl; [exact Hkids|].
    intros c k Hck. apply IH; [done | lia | done]. }
  by rewrite Hkids'.
Qed.

(** ** Running the builder *)

Section builder.
Context `{Lxml}.

Ltac run := unfold mbind, M_bind, mret, M_ret, lift, raise; cbn.

Lemma mhs_uri_eq : mhs_uri = "https://zeticon.mediahaven.com/metadata/19.4/mhs/".
Proof. reflexivity. Qed.

Lemma mh_uri_eq : mh_uri = "https://zeticon.mediahaven.com/metadata/19.4/mh/".
Proof. reflexivity. Qed.

Lemma getNsTag_clark_mhs (name : string) :
  name <> "" -> etree.getNsTag (clark mhs_uri name) = Ok (Some mhs_uri, name).
Proof. intros Hne. destruct name; [done|]. reflexivity. Qed.

Lemma getNsTag_clark_mh (name : string) :
  name <> "" -> etree.getNsTag (clark mh_uri name) = Ok (Some mh_uri, name).
Proof. intros Hne. destruct name; [done|]. reflexivity. Qed.

Lemma getNsTag_plain (name : string) :
  name <> "" -> String.prefix "{" name = false ->
  etree.getNsTag name = Ok (None, name).
Proof.
  intros Hne Hbrace. destruct name as [|c name]; [done|]. simpl in *.
  destruct (Ascii.eqb_spec c "{"%char) as [->|Hc]; [|done].
  simpl in Hbrace. by destruct name.
Qed.

Lemma plain_name_ok_spec (sub : string) :
  plain_name_ok sub = true ->
  sub <> "" /\ String.prefix "{" sub = false /\ xml_name_ok sub = true.
Proof.
  unfold plain_name_ok. rewrite !andb_true_iff, !negb_true_iff.
  intros [[Hne Hbrace] Hok]. repeat split; [|done|done].
  intros ->. done.
Qed.

Lemma SubElement_run (w : world) (parent : loc) (p : node) (cs : list loc)
    (tag : string) (ns : option string) (name : string) :
  store w !! parent = Some (ObjElement p cs) ->
  etree.getNsTag tag = Ok (ns, name) ->
  xml_name_ok name = true ->
  match ns with Some href => xml_uri_ok href = true | None => True end ->
  etree.SubElement parent tag w
  = (Ok (length (store w)),
     {| store := <[parent := ObjElement p (cs ++ [length (store w)])]>
                   (store w ++ [ObjElement (etree.new_node (el_scope p) [] ns name []) []]);
        self := self w |}).
Proof.
  intros Hp Htag Hname Huri. unfold etree.SubElement, get_element. run.
  rewrite Hp, Htag. cbn. rewrite Hname. cbn.
  unfold etree.check_ns.
  destruct ns as [href|]; cbn; [|done].
  by rewrite Huri.
Qed.

Lemma set_text_run (w : world) (l : loc) (n : node) (cs : list loc)
    (val : string) :
  store w !! l = Some (ObjElement n cs) ->
  xml_text_ok val = true ->
  etree.set_text l (VStr val) w
  = (Ok tt,
     {| store := <[l := ObjElement (with_text n (Some val)) cs]> (store w);
        self := self w |}).
Proof.
  intros Hl Hval. unfold etree.set_text, get_element. run.
  rewrite Hl. cbn. by rewrite Hval.
Qed.

Lemma bind_ok {A B} (m : M A) (k : A -> M B) (w w' : world) (a : A) :
  m w = (Ok a, w') -> (m ≫= k) w = k a w'.
Proof. intros Hm. unfold mbind, M_bind. by rewrite Hm. Qed.

Lemma bind_raise {A B} (m : M A) (k : A -> M B) (w w' : world) (e : exn) :
  m w = (Raise e, w') -> (m ≫= k) w = (Raise e, w').
Proof. intros Hm. unfold mbind, M_bind. by rewrite Hm. Qed.

Lemma world_eta (w : world) : {| store := store w; self := self w |} = w.
Proof. by destruct w. Qed.

Lemma allowed_cases (top : string) :
  top ∈ ALLOWED_NODES -> top = "Dynamic" \/ top = "Technical".
Proof.
  intros Hin. repeat (apply elem_of_cons in Hin as [->|Hin]; [auto|]).
  inversion Hin.
Qed.

Lemma valid_field_spec (f : string * pyval) :
  valid_field f = true ->
  exists val, f.2 = VStr val /\ plain_name_ok f.1 = true /\ xml_text_ok val = true.
Proof.
  unfold valid_field. destruct f as [sub [| | |val| |]]; try done.
  simpl. rewrite andb_true_iff. eauto.
Qed.

(** One item of a category: a new element below [node], with its text. *)
Lemma field_step (top : string) (f : string * pyval) (w : world)
    (node : loc) (cs : list loc) :
  top ∈ ALLOWED_NODES ->
  valid_field f = true ->
  store w !! node = Some (ObjElement (category_node top) cs) ->
  (let '(sub, val) := f in
   when (String.eqb top "Technical")
     (e ← etree.SubElement node (clark mh_uri sub); etree.set_text e val);;
   when (String.eqb top "Dynamic")
     (e ← etree.SubElement node sub; etree.set_text e val)) w
  = (Ok tt,
     {| store :=
          <[node := ObjElement (category_node top) (cs ++ [length (store w)])]>
            (store w) ++ [ObjElement (field_node top f) []];
        self := self w |}).
Proof.
  intros Htop Hf Hnode.
  apply valid_field_spec in Hf as (val & Hval & Hname & Htext).
  destruct f as [sub v]. simpl in Hval, Hname. subst v.
  apply plain_name_ok_spec in Hname as (Hne & Hbrace & Hname).
  pose proof (lookup_lt_Some _ _ _ Hnode) as Hlt.
  assert (Hstore : forall (ns : option string),
    <[length (store w) :=
        ObjElement (with_text (etree.new_node (el_scope (category_node top)) [] ns sub [])
                              (Some val)) []]>
      (<[node := ObjElement (category_node top) (cs ++ [length (store w)])]>
         (store w ++ [ObjElement (etree.new_node (el_scope (category_node top)) [] ns sub []) []]))
    = <[node := ObjElement (category_node top) (cs ++ [length (store w)])]> (store w)
      ++ [ObjElement (with_text (etree.new_node (el_scope (category_node top)) [] ns sub [])
                                (Some val)) []]).
  { intros ns. rewrite insert_app_l by done.
    rewrite insert_app_r_alt by (rewrite length_insert; lia).
    rewrite length_insert, Nat.sub_diag. done. }
  assert (Hchild : forall (ns : option string),
    (<[node := ObjElement (category_node top) (cs ++ [length (store w)])]>
       (store w ++ [ObjElement (etree.new_node (el_scope (category_node top)) [] ns sub []) []]))
      !! length (store w)
    = Some (ObjElement (etree.new_node (el_scope (category_node top)) [] ns sub []) [])).
  { intros ns. rewrite list_lookup_insert_ne by lia.
    rewrite lookup_app_r by lia. by rewrite Nat.sub_diag. }
  destruct (allowed_cases top Htop) as [-> | ->]; cbn [String.eqb Ascii.eqb Bool.eqb when].
  - change (mret tt : M unit) with (fun w : world => (Ok tt, w)).
    unfold mbind at 1, M_bind at 1. cbn beta iota.
    erewrite bind_ok; cycle 1.
    { eapply (SubElement_run w node _ cs sub None sub);
        [exact Hnode | by apply getNsTag_plain | done | done]. }
    erewrite set_text_run; [|apply (Hchild None) | done].
    cbn [store self]. by rewrite (Hstore None).
  - erewrite bind_ok; cycle 1.
    { erewrite bind_ok; cycle 1.
      { eapply (SubElement_run w node _ cs _ (Some mh_uri) sub);
          [exact Hnode | by apply getNsTag_clark_mh | done |].
        rewrite mh_uri_eq. apply accepts_mh_uri. }
      erewrite set_text_run; [|apply (Hchild (Some mh_uri)) | done].
      cbn [store self]. rewrite (Hstore (Some mh_uri)). reflexivity. }
    reflexivity.
Qed.

(** The loop over the items of a category. *)
Lemma fields_loop (top : string) (fields : dict) :
  top ∈ ALLOWED_NODES ->
  Forall (fun f => valid_field f = true) fields ->
  forall (w : world) (node : loc) (cs : list loc),
    store w !! node = Some (ObjElement (category_node top) cs) ->
    for_each fields (fun sub_val =>
      let '(sub, val) := sub_val in
      when (String.eqb top "Technical")
        (e ← etree.SubElement node (clark mh_uri sub); etree.set_text e val);;
      when (String.eqb top "Dynamic")
        (e ← etree.SubElement node sub; etree.set_text e val)) w
    = (Ok tt,
       {| store :=
            <[node := ObjElement (category_node top)
                                 (cs ++ seq (length (store w)) (length fields))]>
              (store w)
            ++ ((fun f => ObjElement (field_node top f) []) <$> fields);
          self := self w |}).
Proof.
  intros Htop Hfields. induction Hfields as [|f fs Hf _ IH]; intros w node cs Hnode.
  - cbn. rewrite !app_nil_r, list_insert_id by done. by rewrite world_eta.
  - pose proof (lookup_lt_Some _ _ _ Hnode) as Hlt.
    cbn [for_each]. erewrite bind_ok; cycle 1.
    { by apply (field_step top f w node cs). }
    rewrite (IH _ node (cs ++ [length (store w)])); cbn [store self].
    + rewrite length_app, length_insert. cbn [length].
      rewrite insert_app_l by (rewrite length_insert; lia).
      rewrite list_insert_insert_eq, <- !app_assoc.
      by rewrite Nat.add_1_r.
    + rewrite lookup_app_l by (rewrite length_insert; lia).
      by rewrite list_lookup_insert_eq.
Qed.

(** One key of the mapping: a new element below the root, then its items. *)
Lemma category_step (metadata_dict : dict) (top : string) (fields : dict)
    (w : world) (root : loc) (rcs : list loc) :
  top ∈ ALLOWED_NODES ->
  dict_get metadata_dict top = Some (VDict fields) ->
  Forall (fun f => valid_field f = true) fields ->
  store w !! root = Some (ObjElement root_node rcs) ->
  (node ← etree.SubElement root (clark mhs_uri top);
   fields ← lift (getitem (VDict metadata_dict) top);
   items ← lift (dict_of fields "items");
   for_each items (fun sub_val =>
     let '(sub, val) := sub_val in
     when (String.eqb top "Technical")
       (e ← etree.SubElement node (clark mh_uri sub); etree.set_text e val);;
     when (String.eqb top "Dynamic")
       (e ← etree.SubElement node sub; etree.set_text e val))) w
  = (Ok tt,
     {| store :=
          <[root := ObjElement root_node (rcs ++ [length (store w)])]> (store w)
          ++ ObjElement (category_node top)
                        (seq (S (length (store w))) (length fields))
             :: ((fun f => ObjElement (field_node top f) []) <$> fields);
        self := self w |}).
Proof.
  intros Htop Hget Hfields Hroot.
  pose proof (lookup_lt_Some _ _ _ Hroot) as Hlt.
  erewrite bind_ok; cycle 1.
  { eapply (SubElement_run w root _ rcs _ (Some mhs_uri) top); [exact Hroot | | |].
    - apply getNsTag_clark_mhs. by destruct (allowed_cases top Htop) as [-> | ->].
    - destruct (allowed_cases top Htop) as [-> | ->];
        [apply accepts_Dynamic | apply accepts_Technical].
    - rewrite mhs_uri_eq. apply accepts_mhs_uri. }
  unfold lift, getitem. rewrite Hget.
  unfold mbind at 1, M_bind at 1. cbn beta iota.
  unfold mbind at 1, M_bind at 1. cbn [dict_of].
  rewrite (fields_loop top fields Htop Hfields _ (length (store w)) []);
    cbn [store self].
  - rewrite insert_app_l by done.
    rewrite length_app, length_insert. cbn [length app].
    rewrite insert_app_r_alt by (rewrite length_insert; lia).
    rewrite length_insert, Nat.sub_diag, <- app_assoc, Nat.add_1_r. done.
  - rewrite list_lookup_insert_ne by lia.
    rewrite lookup_app_r by lia. by rewrite Nat.sub_diag.
Qed.

Lemma size_category (metadata_dict : dict) (top : string) :
  size (category_tree metadata_dict top)
  = S (length (fields_of metadata_dict top)).
Proof.
  unfold category_tree. cbn [size]. f_equal.
  induction (fields_of metadata_dict top) as [|f fs IH]; [done|].
  cbn. by rewrite IH.
Qed.

Lemma repr_fields (st : list object) (lo : nat) (top : string) (fields : dict) :
  forall base : nat,
    lo <= base ->
    (forall j f, fields !! j = Some f ->
                 st !! (base + j) = Some (ObjElement (field_node top f) [])) ->
    Forall2 (repr st lo) (seq base (length fields)) (field_tree top <$> fields).
Proof.
  induction fields as [|f fs IH]; intros base Hlo Hat; cbn; constructor.
  - econstructor; [done | | constructor].
    rewrite <- (Nat.add_0_r base). by apply Hat.
  - apply IH; [lia|]. intros j f' Hj.
    replace (S base + j) with (base + S j) by lia. by apply Hat.
Qed.

(** The loop over the keys: the root gets one child per key, each the tree
    of its category, and nothing else that was in the store changes. *)
Lemma categories_loop (metadata_dict : dict) (lo : nat) (root : loc)
    (tops : list string) :
  Forall (category_ready metadata_dict) tops ->
  forall (w : world) (rcs : list loc),
    root < lo -> lo <= length (store w) ->
    store w !! root = Some (ObjElement root_node rcs) ->
    exists (w' : world) (new : list loc),
      for_each tops (fun top =>
        node ← etree.SubElement root (clark mhs_uri top);
        fields ← lift (getitem (VDict metadata_dict) top);
        items ← lift (dict_of fields "items");
        for_each items (fun sub_val =>
          let '(sub, val) := sub_val in
          when (String.eqb top "Technical")
            (e ← etree.SubElement node (clark mh_uri sub); etree.set_text e val);;
          when (String.eqb top "Dynamic")
            (e ← etree.SubElement node sub; etree.set_text e val))) w
      = (Ok tt, w')
      /\ self w' = self w
      /\ store w' !! root = Some (ObjElement root_node (rcs ++ new))
      /\ Forall2 (fun l top => repr (store w') lo l (category_tree metadata_dict top))
                 new tops
      /\ (forall l, l < length (store w) -> l <> root ->
                    store w' !! l = store w !! l)
      /\ length (store w')
         = length (store w)
           + sum_list (size ∘ category_tree metadata_dict <$> tops).
Proof.
  induction 1 as [|top tops (Htop & fields & Hget & Hfields) _ IH];
    intros w rcs Hroot_lo Hlo Hroot.
  - exists w, []. cbn. rewrite app_nil_r. repeat split; auto with lia.
  - pose proof (lookup_lt_Some _ _ _ Hroot) as Hlt.
    pose proof (category_step metadata_dict top fields w root rcs
                  Htop Hget Hfields Hroot) as Hstep.
    set (w2 := {| store := _; self := self w |}) in Hstep.
    assert (Hlen2 : length (store w2) = length (store w) + S (length fields)).
    { subst w2. cbn [store]. rewrite length_app, length_insert. cbn [length].
      by rewrite length_fmap. }
    assert (Hsame2 : forall l, l < length (store w) -> l <> root ->
                               store w2 !! l = store w !! l).
    { intros l Hl Hne. subst w2. cbn [store].
      rewrite lookup_app_l by (rewrite length_insert; lia).
      by rewrite list_lookup_insert_ne. }
    assert (Hroot2 : store w2 !! root
                     = Some (ObjElement root_node (rcs ++ [length (store w)]))).
    { subst w2. cbn [store]. rewrite lookup_app_l by (rewrite length_insert; lia).
      by rewrite list_lookup_insert_eq. }
    assert (Hcat2 : repr (store w2) lo (length (store w))
                         (category_tree metadata_dict top)).
    { unfold category_tree, fields_of. rewrite Hget.
      econstructor; [done | |].
      - subst w2. cbn [store].
        rewrite lookup_app_r by (rewrite length_insert; lia).
        rewrite length_insert, Nat.sub_diag. reflexivity.
      - apply repr_fields; [lia|]. intros j f Hj. subst w2. cbn [store].
        rewrite lookup_app_r by (rewrite length_insert; lia).
        rewrite length_insert.
        replace (S (length (store w)) + j - length (store w)) with (S j) by lia.
        rewrite lookup_cons. by rewrite list_lookup_fmap, Hj. }
    destruct (IH w2 (rcs ++ [length (store w)])) as
      (w' & new & Hrun & Hself & Hroot' & Hcats & Hsame & Hlen);
      [done | lia | done |].
    exists w', (length (store w) :: new). repeat split.
    + cbn [for_each]. erewrite bind_ok; [exact Hrun | exact Hstep].
    + by rewrite Hself.
    + by rewrite Hroot', <- app_assoc.
    + constructor; [|done].
      apply (repr_frame (store w2)); [done|].
      intros l Hl_lo Hl. symmetry. rewrite Hsame; [done | done | lia].
    + intros l Hl Hne. rewrite Hsame by lia. by apply Hsame2.
    + rewrite Hlen, Hlen2, fmap_cons.
      change (sum_list (?x :: ?l)) with (x + sum_list l).
      change ((size ∘ category_tree metadata_dict) top)
        with (size (category_tree metadata_dict top)).
      rewrite size_category. unfold fields_of. rewrite Hget. lia.
Qed.

Lemma steady_refl (lo : nat) (w : world) : steady lo w w.
Proof. by repeat split. Qed.

Lemma steady_trans (lo : nat) (w1 w2 w3 : world) :
  steady lo w1 w2 -> steady lo w2 w3 -> steady lo w1 w3.
Proof.
  intros (Hs1 & Hl1 & Hk1) (Hs2 & Hl2 & Hk2). repeat split.
  - by rewrite Hs2.
  - lia.
  - intros l Hl. by rewrite Hk2, Hk1.
Qed.

Lemma keeps_ret {A} (lo : nat) (a : A) (Q : A -> Prop) :
  Q a -> keeps lo (mret a) Q.
Proof. intros Ha w _. split; [apply steady_refl | done]. Qed.

Lemma keeps_raise {A} (lo : nat) (e : exn) (Q : A -> Prop) :
  keeps lo (raise e) Q.
Proof. intros w _. split; [apply steady_refl | done]. Qed.

Lemma keeps_lift {A} (lo : nat) (r : result A) :
  keeps lo (lift r) (fun _ => True).
Proof. intros w _. split; [apply steady_refl | by destruct r]. Qed.

Lemma keeps_bind {A B} (lo : nat) (m : M A) (k : A -> M B)
    (Q : A -> Prop) (R : B -> Prop) :
  keeps lo m Q -> (forall a, Q a -> keeps lo (k a) R) ->
  keeps lo (m ≫= k) R.
Proof.
  intros Hm Hk w Hw. destruct (Hm w Hw) as [Hsteady Hq].
  unfold mbind, M_bind. destruct (m w) as [[a|e] w1]; cbn in *; [|done].
  destruct Hsteady as (Hs & Hl & Hkeep).
  destruct (Hk a Hq w1) as [Hsteady' Hr]; [lia|].
  split; [|done]. by apply (steady_trans lo w w1).
Qed.

Lemma keeps_weaken {A} (lo : nat) (m : M A) (Q Q' : A -> Prop) :
  keeps lo m Q -> (forall a, Q a -> Q' a) -> keeps lo m Q'.
Proof.
  intros Hm Himpl w Hw. destruct (Hm w Hw) as [Hsteady Hq].
  split; [done|]. destruct (m w).1; auto.
Qed.

Lemma keeps_for_each {A} (lo : nat) (xs : list A) (body : A -> M unit) :
  (forall x, keeps lo (body x) (fun _ => True)) ->
  keeps lo (for_each xs body) (fun _ => True).
Proof.
  intros Hbody. induction xs as [|x xs IH]; cbn [for_each].
  - by apply keeps_ret.
  - eapply keeps_bind; [apply Hbody | done].
Qed.

Lemma keeps_when (lo : nat) (cond : bool) (body : M unit) :
  keeps lo body (fun _ => True) -> keeps lo (when cond body) (fun _ => True).
Proof. destruct cond; [done | intros _; by apply keeps_ret]. Qed.

Lemma keeps_assert (lo : nat) (cond : bool) (msg : string) :
  keeps lo (assert_ cond msg) (fun _ => True).
Proof. destruct cond; [by apply keeps_ret | apply keeps_raise]. Qed.

Lemma keeps_valid_or_raise (lo : nat) (ok : bool) (msg : string) :
  keeps lo (etree.valid_or_raise ok msg) (fun _ => True).
Proof. destruct ok; [by apply keeps_ret | apply keeps_raise]. Qed.

Lemma keeps_alloc (lo : nat) (o : object) :
  keeps lo (alloc o) (fun l => lo <= l).
Proof.
  intros w Hw. split; [|done]. repeat split; cbn.
  - rewrite length_app. lia.
  - intros l Hl. by rewrite lookup_app_l by lia.
Qed.

Lemma keeps_get_element (lo : nat) (l : loc) :
  keeps lo (get_element l) (fun _ => True).
Proof.
  intros w _. unfold get_element.
  destruct (store w !! l) as [[n cs|r]|]; split; try apply steady_refl; done.
Qed.

Lemma keeps_put_element (lo : nat) (l : loc) (n : node) (cs : list loc) :
  lo <= l -> keeps lo (put_element l n cs) (fun _ => True).
Proof.
  intros Hl w _. split; [|done]. repeat split; cbn.
  - by rewrite length_insert.
  - intros l' Hl'. by rewrite list_lookup_insert_ne by lia.
Qed.

Lemma keeps_check_ns (lo : nat) (ns : option string) :
  keeps lo (etree.check_ns ns) (fun _ => True).
Proof. destruct ns; [apply keeps_valid_or_raise | by apply keeps_ret]. Qed.

Lemma keeps_SubElement (lo : nat) (parent : loc) (tag : string) :
  lo <= parent -> keeps lo (etree.SubElement parent tag) (fun l => lo <= l).
Proof.
  intros Hparent. unfold etree.SubElement.
  eapply keeps_bind; [apply keeps_get_element|]. intros [p cs] _.
  eapply keeps_bind; [apply keeps_lift|]. intros [ns name] _.
  eapply keeps_bind; [apply keeps_valid_or_raise|]. intros _ _.
  eapply keeps_bind; [apply keeps_check_ns|]. intros _ _.
  eapply keeps_bind; [apply keeps_alloc|]. intros child Hchild.
  eapply keeps_bind; [by apply keeps_put_element|]. intros _ _.
  by apply keeps_ret.
Qed.

Lemma keeps_set_text (lo : nat) (l : loc) (val : pyval) :
  lo <= l -> keeps lo (etree.set_text l val) (fun _ => True).
Proof.
  intros Hl. unfold etree.set_text.
  eapply keeps_bind; [apply keeps_get_element|]. intros [n cs] _.
  eapply keeps_bind with (Q := fun _ => True); [|intros; by apply keeps_put_element].
  destruct val; try apply keeps_raise; [by apply keeps_ret|].
  eapply keeps_bind; [apply keeps_valid_or_raise|]. intros _ _.
  by apply keeps_ret.
Qed.

Lemma keeps_Element (lo : nat) (tag : string)
    (attrib nsmap : list (string * string)) :
  keeps lo (etree.Element tag attrib nsmap) (fun l => lo <= l).
Proof.
  unfold etree.Element.
  eapply keeps_bind; [apply keeps_lift|]. intros [ns name] _.
  eapply keeps_bind; [apply keeps_valid_or_raise|]. intros _ _.
  eapply keeps_bind.
  { apply keeps_for_each. intros ph.
    eapply keeps_bind; [apply keeps_valid_or_raise|]. intros _ _.
    apply keeps_valid_or_raise. }
  intros _ _.
  eapply keeps_bind; [apply keeps_check_ns|]. intros _ _.
  eapply keeps_bind.
  { apply keeps_for_each. intros kv.
    eapply keeps_bind; [apply keeps_valid_or_raise|]. intros _ _.
    apply keeps_valid_or_raise. }
  intros _ _. apply keeps_alloc.
Qed.

Lemma keeps_ElementTree (lo : nat) (root : loc) :
  keeps lo (etree.ElementTree root) (fun l => lo <= l).
Proof.
  unfold etree.ElementTree.
  eapply keeps_bind; [apply keeps_get_element|]. intros _ _.
  apply keeps_alloc.
Qed.

Lemma keeps_check_metadata_dict (lo : nat) (metadata_dict : dict) :
  keeps lo (check_metadata_dict metadata_dict) (fun _ => True).
Proof. apply keeps_for_each. intros k. apply keeps_assert. Qed.

(** *** The steps of [build] *)

Lemma check_keys_ok (ks : list string) (w : world) :
  Forall (fun k => k ∈ ALLOWED_NODES) ks ->
  for_each ks (fun k =>
    assert_ (bool_decide (k ∈ ALLOWED_NODES))
            ("Unknown sidecar node: " +:+ dq +:+ k +:+ dq)) w
  = (Ok tt, w).
Proof.
  induction 1 as [|k ks Hk _ IH]; cbn [for_each]; [done|].
  erewrite bind_ok; [exact IH|]. by rewrite bool_decide_eq_true_2.
Qed.

Lemma check_keys_fail (before after : list string) (k : string) (w : world) :
  Forall (fun k => k ∈ ALLOWED_NODES) before ->
  k ∉ ALLOWED_NODES ->
  for_each (before ++ k :: after) (fun k =>
    assert_ (bool_decide (k ∈ ALLOWED_NODES))
            ("Unknown sidecar node: " +:+ dq +:+ k +:+ dq)) w
  = (Raise (unknown_node k), w).
Proof.
  intros Hbefore Hk. induction Hbefore as [|k' ks Hk' _ IH]; cbn [for_each app].
  - erewrite bind_raise; [done|]. by rewrite bool_decide_eq_false_2.
  - erewrite bind_ok; [exact IH|]. by rewrite bool_decide_eq_true_2.
Qed.

(** The first key that is not allowed, if there is one. *)
Lemma first_unknown (ks : list string) :
  Exists (fun k => k ∉ ALLOWED_NODES) ks ->
  exists before k after,
    ks = (before ++ k :: after)
    /\ Forall (fun k => k ∈ ALLOWED_NODES) before
    /\ k ∉ ALLOWED_NODES.
Proof.
  induction ks as [|k ks IH]; intros Hex; [by apply Exists_nil in Hex|].
  destruct (decide (k ∈ ALLOWED_NODES)) as [Hk|Hk].
  - apply Exists_cons in Hex as [Hex|Hex]; [done|].
    destruct (IH Hex) as (before & k' & after & -> & Hbefore & Hk').
    exists (k :: before), k', after. repeat split; [by constructor | done].
  - exists [], k, ks. repeat split; [constructor | done].
Qed.

Lemma Element_root_run (w : world) :
  etree.Element (clark mhs_uri "Sidecar") [("version", MHS_VERSION)]
                MH_NAMESPACES w
  = (Ok (length (store w)),
     {| store := store w ++ [ObjElement root_node []]; self := self w |}).
Proof.
  unfold etree.Element, etree.valid_or_raise, etree.check_ns, alloc, root_node.
  cbv [MH_NAMESPACES MHS_VERSION mhs_uri clark String.append default
       etree.href_of String.eqb Ascii.eqb Bool.eqb]. run.
  rewrite accepts_Sidecar, accepts_mhs_uri, accepts_mhs, accepts_mh_uri,
          accepts_mh, accepts_version, accepts_19_4.
  reflexivity.
Qed.

Lemma ElementTree_run (w : world) (root : loc) (n : node) (cs : list loc) :
  store w !! root = Some (ObjElement n cs) ->
  etree.ElementTree root w
  = (Ok (length (store w)),
     {| store := store w ++ [ObjElementTree root]; self := self w |}).
Proof.
  intros Hroot. unfold etree.ElementTree, get_element, alloc. run.
  by rewrite Hroot.
Qed.

Lemma installs_bind {A B} (lo : nat) (m : M A) (k : A -> M B) (Q : A -> Prop) :
  keeps lo m Q -> (forall a, Q a -> installs lo (k a)) ->
  installs lo (m ≫= k).
Proof.
  intros Hm Hk w Hw. destruct (Hm w Hw) as [(Hs & Hl & Hkeep) Hq].
  unfold mbind, M_bind. destruct (m w) as [[a|e] w1]; cbn in *.
  - destruct (Hk a Hq w1) as (Hl' & Hkeep' & Hres); [lia|].
    split; [lia|]. split.
    + intros l Hlo. by rewrite Hkeep', Hkeep.
    + destruct (k a w1).1.
      * destruct Hres as (doc & Hdoc & ->). exists doc. by rewrite Hs.
      * by rewrite Hres.
  - done.
Qed.

Lemma installs_put (lo : nat) (doc : loc) :
  lo <= doc ->
  installs lo (b ← get_self; put_self {| sidecar := Some doc; ctx := ctx b |}).
Proof.
  intros Hdoc w _. cbn. split; [done|]. split; [done|]. by exists doc.
Qed.

Lemma build_installs (lo : nat) (metadata_dict : dict) :
  installs lo (build metadata_dict).
Proof.
  unfold build.
  eapply installs_bind; [apply keeps_check_metadata_dict|]. intros _ _.
  eapply installs_bind; [apply keeps_Element|]. intros root Hroot.
  eapply installs_bind; [apply keeps_ElementTree|]. intros doc Hdoc.
  eapply installs_bind; [|intros _ _; by apply installs_put].
  apply keeps_for_each. intros top.
  eapply keeps_bind; [by apply keeps_SubElement|]. intros node Hnode.
  eapply keeps_bind; [apply keeps_lift|]. intros fields _.
  eapply keeps_bind; [apply keeps_lift|]. intros items _.
  apply keeps_for_each. intros [sub val].
  eapply keeps_bind with (Q := fun _ => True); [|intros _ _].
  - apply keeps_when.
    eapply keeps_bind; [by apply keeps_SubElement|]. intros e He.
    by apply keeps_set_text.
  - apply keeps_when.
    eapply keeps_bind; [by apply keeps_SubElement|]. intros e He.
    by apply keeps_set_text.
Qed.

(** Whatever the mapping, [build] leaves every object of the store as it
    was; when it raises, the builder's attributes too. *)
Lemma build_steady (metadata_dict : dict) (w : world) :
  length (store w) <= length (store (build metadata_dict w).2)
  /\ (forall l o, store w !! l = Some o ->
                  store (build metadata_dict w).2 !! l = Some o)
  /\ match (build metadata_dict w).1 with
     | Ok _ => exists doc, length (store w) <= doc
                 /\ self (build metadata_dict w).2
                    = {| sidecar := Some doc; ctx := ctx (self w) |}
     | Raise _ => self (build metadata_dict w).2 = self w
     end.
Proof.
  destruct (build_installs (length (store w)) metadata_dict w) as (Hlen & Hkeep & Hres);
    [done|].
  split; [done|]. split; [|done]. intros l o Hl.
  rewrite Hkeep; [done|]. by eapply lookup_lt_Some.
Qed.

(** *** [build] on a mapping of the data model *)

Lemma dict_get_NoDup (d : dict) (k : string) (v : pyval) :
  NoDup (keys d) -> (k, v) ∈ d -> dict_get d k = Some v.
Proof.
  unfold keys. induction d as [|[k' v'] d IH]; intros Hnd Hin.
  - inversion Hin.
  - cbn in Hnd. apply NoDup_cons in Hnd as [Hk' Hnd]. cbn.
    apply elem_of_cons in Hin as [[= <- <-]|Hin].
    + by rewrite String.eqb_refl.
    + destruct (String.eqb_spec k' k) as [->|Hne]; [|by apply IH].
      destruct Hk'. apply list_elem_of_fmap. by exists (k, v).
Qed.

Lemma forallb_Forall {A} (f : A -> bool) (xs : list A) :
  forallb f xs = true -> Forall (fun x => f x = true) xs.
Proof.
  induction xs as [|x xs IH]; cbn; [constructor|].
  rewrite andb_true_iff. intros [Hx Hxs]. constructor; auto.
Qed.

Lemma valid_category_spec (kv : string * pyval) :
  valid_category kv = true ->
  kv.1 ∈ ALLOWED_NODES
  /\ exists fields, kv.2 = VDict fields
                    /\ Forall (fun f => valid_field f = true) fields.
Proof.
  unfold valid_category. rewrite andb_true_iff, bool_decide_eq_true.
  intros [Htop Hfields]. split; [done|].
  destruct kv.2 as [| | | | |fields]; try done.
  exists fields. split; [done|]. by apply forallb_Forall.
Qed.

Lemma valid_metadata_spec (metadata_dict : dict) :
  valid_metadata metadata_dict = true ->
  NoDup (keys metadata_dict)
  /\ Forall (fun kv => valid_category kv = true) metadata_dict.
Proof.
  unfold valid_metadata. rewrite andb_true_iff, bool_decide_eq_true.
  intros [Hcats Hnd]. split; [done|]. by apply forallb_Forall.
Qed.

Lemma valid_metadata_ready (metadata_dict : dict) :
  valid_metadata metadata_dict = true ->
  Forall (category_ready metadata_dict) (keys metadata_dict).
Proof.
  intros (Hnd & Hcats)%valid_metadata_spec.
  apply Forall_forall. intros top Htop.
  apply list_elem_of_fmap in Htop as ([top' v] & -> & Hin). cbn.
  rewrite Forall_forall in Hcats.
  destruct (valid_category_spec _ (Hcats _ Hin)) as (Hallowed & fields & Hv & Hfields).
  cbn in Hallowed, Hv. subst v. split; [done|].
  exists fields. split; [|done]. by apply dict_get_NoDup.
Qed.

Lemma repr_weaken (st : list object) (lo lo' : nat) (t : xml) :
  forall l : loc, repr st lo l t -> lo' <= lo -> repr st lo' l t.
Proof.
  induction t as [n kids IH] using xml_nested_ind.
  intros l Hrepr Hle. inversion Hrepr as [l0 n0 children kids0 Hlo Hl Hkids]; subst.
  econstructor; [lia | done |].
  clear Hl Hrepr. induction Hkids as [|c k cs ks Hck _ IHks]; constructor.
  - apply Forall_inv in IH. by apply IH.
  - apply IHks. by apply Forall_inv_tail in IH.
Qed.

Lemma size_document (metadata_dict : dict) :
  size (document_of metadata_dict)
  = S (sum_list (size ∘ category_tree metadata_dict <$> keys metadata_dict)).
Proof.
  unfold document_of. cbn [size]. f_equal.
  induction (keys metadata_dict) as [|top tops IH]; [done|].
  rewrite !fmap_cons. cbn [foldr]. rewrite IH. reflexivity.
Qed.

(** On a mapping of the data model [build] returns, with [self.sidecar] an
    element tree whose root is the tree [document_of]. *)
Lemma build_valid (metadata_dict : dict) (w : world) :
  valid_metadata metadata_dict = true ->
  exists w',
    build metadata_dict w = (Ok tt, w')
    /\ self w' = {| sidecar := Some (S (length (store w))); ctx := ctx (self w) |}
    /\ store w' !! S (length (store w)) = Some (ObjElementTree (length (store w)))
    /\ repr (store w') (length (store w)) (length (store w))
            (document_of metadata_dict)
    /\ length (store w')
       = length (store w) + 1 + size (document_of metadata_dict)
    /\ held_document w' = Some (document_of metadata_dict).
Proof.
  intros Hvalid. pose proof (valid_metadata_ready _ Hvalid) as Hready.
  set (n := length (store w)).
  set (w1 := {| store := store w ++ [ObjElement root_node []]; self := self w |}).
  set (w2 := {| store := store w1 ++ [ObjElementTree n]; self := self w1 |}).
  assert (Hroot2 : store w2 !! n = Some (ObjElement root_node [])).
  { subst w2 w1 n. cbn [store].
    rewrite lookup_app_l by (rewrite length_app; cbn; lia).
    rewrite lookup_app_r by lia. by rewrite Nat.sub_diag. }
  assert (Hlen2 : length (store w2) = n + 2).
  { subst w2 w1 n. cbn [store]. rewrite !length_app. cbn. lia. }
  destruct (categories_loop metadata_dict (n + 2) n (keys metadata_dict) Hready
              w2 []) as (w3 & new & Hrun & Hself & Hroot3 & Hcats & Hsame & Hlen3);
    [lia | lia | done |].
  assert (Htree3 : store w3 !! S n = Some (ObjElementTree n)).
  { rewrite Hsame by lia. subst w2 w1 n. cbn [store].
    rewrite lookup_app_r by (rewrite length_app; cbn; lia).
    rewrite length_app. cbn [length].
    by replace (S (length (store w)) - (length (store w) + 1)) with 0 by lia. }
  assert (Hrepr : repr (store w3) n n (document_of metadata_dict)).
  { econstructor; [done | exact Hroot3 |]. cbn [app].
    apply Forall2_fmap_r. eapply Forall2_impl; [exact Hcats|].
    intros l top Hl. apply (repr_weaken _ (n + 2)); [done | lia]. }
  assert (Hsize : length (store w3) = n + 1 + size (document_of metadata_dict)).
  { rewrite Hlen3, Hlen2, size_document. lia. }
  exists {| store := store w3;
            self := {| sidecar := Some (S n); ctx := ctx (self w) |} |}.
  split; [|split; [done|split; [done|split; [done|split; [done|]]]]].
  - unfold build.
    erewrite bind_ok; cycle 1.
    { apply check_keys_ok. eapply Forall_impl; [exact Hready|]. by intros top [? _]. }
    erewrite bind_ok; [|apply Element_root_run].
    erewrite bind_ok; cycle 1.
    { apply (ElementTree_run w1 n root_node []). subst w1 n. cbn [store].
      rewrite lookup_app_r by lia. by rewrite Nat.sub_diag. }
    replace (length (store w1)) with (S n)
      by (subst w1 n; cbn [store]; rewrite length_app; cbn; lia).
    erewrite bind_ok; [|exact Hrun].
    unfold mbind, M_bind, get_self, put_self. by rewrite Hself.
  - unfold held_document, root_of. cbn [self sidecar store mbind option_bind].
    rewrite Htree3. apply (read_tree_repr _ _ n); [done|].
    pose proof (height_le_size (document_of metadata_dict)). lia.
Qed.

(** *** Every document that [build] installs can be read *)

Lemma grows_refl (lo : nat) (w : world) : grows lo w w.
Proof. by repeat split. Qed.

Lemma grows_trans (lo : nat) (w1 w2 w3 : world) :
  grows lo w1 w2 -> grows lo w2 w3 -> grows lo w1 w3.
Proof.
  intros (Hl1 & He1 & Ht1 & Hf1) (Hl2 & He2 & Ht2 & Hf2).
  repeat split; [lia | auto | auto | auto].
Qed.

Lemma is_element_lt (st : list object) (l : loc) :
  is_element st l -> l < length st.
Proof. intros (n & cs & Hl). by eapply lookup_lt_Some. Qed.

(** A new element without children at the end of the store. *)
Lemma grows_alloc_leaf (lo : nat) (w : world) (nd : node) :
  grows lo w {| store := store w ++ [ObjElement nd []]; self := self w |}.
Proof.
  assert (Hmono : forall l, is_element (store w) l ->
                            is_element (store w ++ [ObjElement nd []]) l).
  { intros l (n & cs & Hl). exists n, cs. rewrite lookup_app_l; [done|].
    by eapply lookup_lt_Some. }
  unfold grows. cbn [store]. split; [|split; [|split]].
  - rewrite length_app. lia.
  - done.
  - intros l r Hl. rewrite lookup_app_l; [done|]. by eapply lookup_lt_Some.
  - intros Hforward l n cs Hlo Hl.
    destruct (decide (l < length (store w))) as [Hlt|Hge].
    + rewrite lookup_app_l in Hl by done.
      eapply Forall_impl; [by eapply Hforward|].
      intros c [Hc Helem]. auto.
    + rewrite lookup_app_r in Hl by lia.
      destruct (l - length (store w)) as [|k]; [|by destruct k].
      injection Hl as <- <-. constructor.
Qed.

(** An element tree at the end of the store. *)
Lemma grows_alloc_tree (lo : nat) (w : world) (root : loc) :
  grows lo w {| store := store w ++ [ObjElementTree root]; self := self w |}.
Proof.
  assert (Hmono : forall l, is_element (store w) l ->
                            is_element (store w ++ [ObjElementTree root]) l).
  { intros l (n & cs & Hl). exists n, cs. rewrite lookup_app_l; [done|].
    by eapply lookup_lt_Some. }
  unfold grows. cbn [store]. split; [|split; [|split]].
  - rewrite length_app. lia.
  - done.
  - intros l r Hl. rewrite lookup_app_l; [done|]. by eapply lookup_lt_Some.
  - intros Hforward l n cs Hlo Hl.
    destruct (decide (l < length (store w))) as [Hlt|Hge].
    + rewrite lookup_app_l in Hl by done.
      eapply Forall_impl; [by eapply Hforward|].
      intros c [Hc Helem]. auto.
    + rewrite lookup_app_r in Hl by lia.
      destruct (l - length (store w)) as [|k]; [done | by destruct k].
Qed.

(** An element written again, with children that point forward. *)
Lemma grows_put (lo : nat) (w : world) (l : loc) (n n' : node)
    (cs cs' : list loc) :
  store w !! l = Some (ObjElement n cs) ->
  (forward lo (store w) -> lo <= l ->
   Forall (fun c => l < c /\ is_element (store w) c) cs') ->
  grows lo w {| store := <[l := ObjElement n' cs']> (store w); self := self w |}.
Proof.
  intros Hl Hcs'. pose proof (lookup_lt_Some _ _ _ Hl) as Hlt.
  assert (Hmono : forall c, is_element (store w) c ->
                            is_element (<[l := ObjElement n' cs']> (store w)) c).
  { intros c (nc & csc & Hc). destruct (decide (c = l)) as [->|Hne].
    - exists n', cs'. by rewrite list_lookup_insert_eq.
    - exists nc, csc. by rewrite list_lookup_insert_ne. }
  unfold grows. cbn [store]. split; [|split; [|split]].
  - by rewrite length_insert.
  - done.
  - intros l' r Hl'. rewrite list_lookup_insert_ne; [done|]. congruence.
  - intros Hforward l' n'' cs'' Hlo Hl'.
    destruct (decide (l' = l)) as [->|Hne].
    + rewrite list_lookup_insert_eq in Hl' by done. injection Hl' as <- <-.
      eapply Forall_impl; [by apply Hcs'|]. intros c [Hc Helem]. auto.
    + rewrite list_lookup_insert_ne in Hl' by done.
      eapply Forall_impl; [by eapply Hforward|]. intros c [Hc Helem]. auto.
Qed.

Lemma tidy_ret {A} (lo : nat) (a : A) : tidy lo (mret a).
Proof. intros w. apply grows_refl. Qed.

Lemma tidy_raise {A} (lo : nat) (e : exn) : tidy lo (raise e : M A).
Proof. intros w. apply grows_refl. Qed.

Lemma tidy_lift {A} (lo : nat) (r : result A) : tidy lo (lift r).
Proof. intros w. apply grows_refl. Qed.

Lemma tidy_bind {A B} (lo : nat) (m : M A) (k : A -> M B) :
  tidy lo m -> (forall a, tidy lo (k a)) -> tidy lo (m ≫= k).
Proof.
  intros Hm Hk w. specialize (Hm w). unfold mbind, M_bind.
  destruct (m w) as [[a|e] w1]; cbn in *; [|done].
  by apply (grows_trans lo w w1), Hk.
Qed.

Lemma tidy_for_each {A} (lo : nat) (xs : list A) (body : A -> M unit) :
  (forall x, tidy lo (body x)) -> tidy lo (for_each xs body).
Proof.
  intros Hbody. induction xs as [|x xs IH]; cbn [for_each].
  - apply tidy_ret.
  - by apply tidy_bind.
Qed.

Lemma tidy_when (lo : nat) (cond : bool) (body : M unit) :
  tidy lo body -> tidy lo (when cond body).
Proof. destruct cond; [done | intros _; apply tidy_ret]. Qed.

Lemma tidy_valid_or_raise (lo : nat) (ok : bool) (msg : string) :
  tidy lo (etree.valid_or_raise ok msg).
Proof. destruct ok; [apply tidy_ret | apply tidy_raise]. Qed.

Lemma tidy_check_ns (lo : nat) (ns : option string) :
  tidy lo (etree.check_ns ns).
Proof. destruct ns; [apply tidy_valid_or_raise | apply tidy_ret]. Qed.

Lemma tidy_SubElement (lo : nat) (parent : loc) (tag : string) :
  tidy lo (etree.SubElement parent tag).
Proof.
  intros w. unfold etree.SubElement, get_element, unreachable.
  unfold mbind at 1, M_bind at 1.
  destruct (store w !! parent) as [[p cs|r]|] eqn:Hparent;
    try apply grows_refl.
  unfold mbind at 1, M_bind at 1, lift.
  destruct (etree.getNsTag tag) as [[ns name]|e]; [|apply grows_refl].
  unfold mbind at 1, M_bind at 1, etree.valid_or_raise.
  destruct (xml_name_ok name); [|apply grows_refl]. cbn [mret M_ret].
  unfold mbind at 1, M_bind at 1, etree.check_ns, etree.valid_or_raise.
  destruct (match ns with Some href => xml_uri_ok href | None => true end) eqn:Huri.
  2:{ destruct ns as [href|]; [|done]. rewrite Huri. apply grows_refl. }
  assert (Hchk : (match ns with
                  | Some href => if xml_uri_ok href then mret tt
                                 else raise (ValueError "Invalid namespace URI")
                  | None => mret tt
                  end : M unit) w = (Ok tt, w)).
  { destruct ns as [href|]; [by rewrite Huri | done]. }
  rewrite Hchk. cbn.
  pose proof (lookup_lt_Some _ _ _ Hparent) as Hlt.
  eapply grows_trans; [apply (grows_alloc_leaf lo w)|].
  apply (grows_put lo _ parent p p cs).
  - cbn. by rewrite lookup_app_l.
  - cbn. intros Hforward Hlo. apply Forall_app. split.
    + apply (Hforward parent p cs Hlo). by rewrite lookup_app_l.
    + constructor; [|constructor]. split; [done|].
      eexists _, _. rewrite lookup_app_r by lia. by rewrite Nat.sub_diag.
Qed.

Lemma tidy_set_text (lo : nat) (l : loc) (val : pyval) :
  tidy lo (etree.set_text l val).
Proof.
  intros w. unfold etree.set_text, get_element, unreachable.
  unfold mbind at 1, M_bind at 1.
  destruct (store w !! l) as [[n cs|r]|] eqn:Hl; try apply grows_refl.
  assert (Hput : forall text,
    grows lo w (put_element l (with_text n text) cs w).2).
  { intros text. apply (grows_put lo w l n _ cs cs); [done|].
    intros Hforward Hlo. by eapply Hforward. }
  destruct val as [| | |s| |]; cbn; try apply grows_refl.
  - apply (Hput None).
  - unfold etree.valid_or_raise. destruct (xml_text_ok s); cbn.
    + apply (Hput (Some s)).
    + apply grows_refl.
Qed.

(** With references pointing forward, reading below an element succeeds as
    soon as the fuel covers the rest of the store. *)
Lemma read_tree_forward (lo : nat) (st : list object) (fuel : nat) :
  forward lo st ->
  forall l, lo <= l -> is_element st l -> length st - l <= fuel ->
            is_Some (read_tree fuel st l).
Proof.
  intros Hforward. induction fuel as [|fuel IH]; intros l Hlo Helem Hfuel.
  - apply is_element_lt in Helem. lia.
  - destruct Helem as (n & cs & Hl). cbn [read_tree]. rewrite Hl.
    assert (Hkids : is_Some (mapM (read_tree fuel st) cs)).
    { apply mapM_is_Some. eapply Forall_impl; [by eapply Hforward|].
      intros c [Hc Helem]. apply IH; [lia | done | lia]. }
    destruct Hkids as [kids ->]. by eexists.
Qed.

Lemma check_metadata_dict_world (metadata_dict : dict) (w : world) :
  (check_metadata_dict metadata_dict w).2 = w.
Proof.
  unfold check_metadata_dict.
  induction (keys metadata_dict) as [|k ks IH]; cbn [for_each]; [done|].
  unfold mbind, M_bind, assert_.
  destruct (bool_decide (k ∈ ALLOWED_NODES)); cbn; [|done].
  destruct (for_each ks _ w) as [[[]|e] w']; cbn in *; done.
Qed.

(** Whatever the mapping, when [build] returns the builder holds a document
    that [etree.tostring] reads. *)
Lemma build_returns_document (metadata_dict : dict) (w w' : world) :
  build metadata_dict w = (Ok tt, w') ->
  exists t, held_document w' = Some t.
Proof.
  unfold build. intros Hrun.
  pose proof (check_metadata_dict_world metadata_dict w) as Hcheck.
  unfold mbind at 1, M_bind at 1 in Hrun.
  destruct (check_metadata_dict metadata_dict w) as [[[]|e] w0]; [|done].
  cbn in Hcheck. subst w0.
  erewrite bind_ok in Hrun; [|apply Element_root_run].
  set (n := length (store w)) in *.
  set (w1 := {| store := store w ++ [ObjElement root_node []]; self := self w |}) in *.
  assert (Hroot1 : store w1 !! n = Some (ObjElement root_node [])).
  { subst w1 n. cbn. rewrite lookup_app_r by lia. by rewrite Nat.sub_diag. }
  erewrite bind_ok in Hrun; [|by apply (ElementTree_run w1 n root_node [])].
  replace (length (store w1)) with (S n) in Hrun
    by (subst w1 n; cbn; rewrite length_app; cbn; lia).
  set (w2 := {| store := store w1 ++ [ObjElementTree n]; self := self w1 |}) in *.
  match type of Hrun with
  | (?loop ≫= _) w2 = _ =>
      assert (Hloop : grows n w2 (loop w2).2);
      [|unfold mbind at 1, M_bind at 1 in Hrun;
        destruct (loop w2) as [[[]|e] w3]; [|done]]
  end.
  { apply tidy_for_each. intros top.
    apply tidy_bind; [apply tidy_SubElement|]. intros node.
    apply tidy_bind; [apply tidy_lift|]. intros fields.
    apply tidy_bind; [apply tidy_lift|]. intros items.
    apply tidy_for_each. intros [sub val].
    apply tidy_bind; [|intros _]; apply tidy_when;
      (apply tidy_bind; [apply tidy_SubElement | intros e; apply tidy_set_text]). }
  cbn in Hloop. destruct Hloop as (Hlen & Helem & Htree & Hforward).
  injection Hrun as <-.
  assert (Hforward3 : forward n (store w3)).
  { apply Hforward. intros l nd cs Hlo Hl. subst w2 w1 n. cbn in Hl.
    rewrite <- app_assoc in Hl.
    rewrite lookup_app_r in Hl by lia.
    destruct (l - length (store w)) as [|[|k]]; cbn in Hl; [|done|done].
    injection Hl as <- <-. constructor. }
  assert (Hroot3 : is_element (store w3) n).
  { apply Helem. subst w2. cbn. exists root_node, [].
    rewrite lookup_app_l; [done|]. by eapply lookup_lt_Some. }
  assert (Htree3 : store w3 !! S n = Some (ObjElementTree n)).
  { apply Htree. subst w2 w1 n. cbn.
    rewrite lookup_app_r by (rewrite length_app; cbn; lia).
    rewrite length_app. cbn.
    by replace (S (length (store w)) - (length (store w) + 1)) with 0 by lia. }
  unfold held_document, root_of. cbn. rewrite Htree3.
  apply (read_tree_forward n); [done | done | done | lia].
Qed.

(** *** Serialisation of what the builder holds *)

Lemma to_bytes_held (w : world) (pretty : bool) (t : xml) :
  held_document w = Some t ->
  to_bytes pretty w
  = (Ok (list_byte_of_string (Output.write_document pretty XML_ENCODING true t)), w).
Proof.
  unfold held_document, to_bytes, etree_tostring, get_self, mbind, M_bind.
  intros Hheld. destruct (sidecar (self w)) as [l|]; [|done].
  cbn in Hheld. by rewrite Hheld.
Qed.

Lemma to_bytes_none (w : world) (pretty : bool) :
  sidecar (self w) = None ->
  to_bytes pretty w = (Raise none_not_serialized, w).
Proof.
  intros Hnone. unfold to_bytes, etree_tostring, get_self, mbind, M_bind.
  by rewrite Hnone.
Qed.

Lemma to_string_to_bytes (w : world) (pretty : bool) :
  to_string pretty w
  = match to_bytes pretty w with
    | (Ok bs, w') => (Ok (decode_utf8 bs), w')
    | (Raise e, w') => (Raise e, w')
    end.
Proof.
  unfold to_string, to_bytes, get_self, mbind, M_bind.
  by destruct (etree_tostring _ _ _ _ w) as [[bs|e] w'].
Qed.

Lemma never_built_none (w : world) :
  never_built w -> sidecar (self w) = None.
Proof.
  induction 1 as [ctx w|md w _ IH [e He]|pretty w _ IH|pretty w _ IH].
  - done.
  - destruct (build_steady md w) as (_ & _ & Hself). rewrite He in Hself.
    by rewrite Hself.
  - by rewrite to_bytes_none.
  - by rewrite to_string_to_bytes, to_bytes_none.
Qed.

Lemma append_assoc (a b c : string) : (a +:+ b) +:+ c = a +:+ b +:+ c.
Proof.
  induction a as [|x a IH]; [done|].
  change (String x ((a +:+ b) +:+ c) = String x (a +:+ b +:+ c)).
  by rewrite IH.
Qed.

(** The text of an element without text of its own: its start tag, then
    either the end of an empty element or content and an end tag. *)
Lemma write_node_shape (format : bool) (level : nat) (n : node) (kids : list xml) :
  el_text n = None ->
  exists rest,
    Output.write_node format level (XNode n kids) = Output.start_tag n +:+ rest
    /\ ((kids = [] /\ rest = "/>")
        \/ (kids <> []
            /\ exists inner, rest = ">" +:+ inner +:+ "</" +:+ Output.qname n +:+ ">")).
Proof.
  intros Htext. destruct kids as [|k kids].
  - exists "/>". cbn [Output.write_node]. rewrite Htext. split; [done | by left].
  - eexists. cbn [Output.write_node]. rewrite Htext. split; [reflexivity|].
    right. split; [done|]. cbn [from_option].
    match goal with
    | |- exists inner, _ +:+ ?a +:+ ?b +:+ ?c +:+ ?d +:+ _ = _ =>
        exists (a +:+ b +:+ c +:+ d)
    end.
    by rewrite !append_assoc.
Qed.

(** *** The children of the tree that [build] makes *)

Lemma document_kid (metadata_dict : dict) (i : nat) (top : string) (v : pyval) :
  NoDup (keys metadata_dict) ->
  metadata_dict !! i = Some (top, v) ->
  xml_kids (document_of metadata_dict) !! i
  = Some (category_tree metadata_dict top)
  /\ dict_get metadata_dict top = Some v.
Proof.
  intros Hnd Hi. split.
  - cbn. unfold keys. by rewrite !list_lookup_fmap, Hi.
  - apply dict_get_NoDup; [done|]. by eapply list_elem_of_lookup_2.
Qed.

Lemma category_kid (metadata_dict : dict) (top : string) (fields : dict)
    (j : nat) (f : string * pyval) :
  dict_get metadata_dict top = Some (VDict fields) ->
  fields !! j = Some f ->
  xml_kids (category_tree metadata_dict top) !! j = Some (field_tree top f).
Proof.
  intros Hget Hj. cbn. unfold fields_of. by rewrite Hget, list_lookup_fmap, Hj.
Qed.

End builder.

(** ** The sidecar builder *)

Section sidecar.
Context `{Lxml}.

Lemma held_document_kept (w w' : world) (t : xml) :
  self w' = self w ->
  length (store w) <= length (store w') ->
  (forall l o, store w !! l = Some o -> store w' !! l = Some o) ->
  held_document w = Some t -> held_document w' = Some t.
Proof.
  unfold held_document. intros -> Hlen Hkeep Hheld.
  destruct (sidecar (self w)) as [l|]; [|done]. cbn in *.
  assert (Hroot : root_of (store w') l = root_of (store w) l).
  { unfold root_of. destruct (store w !! l) as [o|] eqn:Hl.
    - by rewrite (Hkeep _ _ Hl).
    - unfold root_of in Hheld. rewrite Hl in Hheld.
      destruct (length (store w)); cbn in Hheld; [done|]. by rewrite Hl in Hheld. }
  rewrite Hroot. by eapply read_tree_mono.
Qed.

Lemma to_bytes_ok_inv (w w' : world) (pretty : bool) (bs : list byte) :
  to_bytes pretty w = (Ok bs, w') ->
  w' = w
  /\ exists t, held_document w = Some t
               /\ bs = list_byte_of_string
                         (Output.write_document pretty XML_ENCODING true t).
Proof.
  unfold to_bytes, held_document, etree_tostring, get_self, mbind, M_bind.
  destruct (sidecar (self w)) as [l|]; [|done]. cbn.
  destruct (read_tree _ _ _) as [t|]; [|done].
  intros [= <- <-]. eauto.
Qed.

Lemma root_node_eq :
  root_node
  = {| el_ns := Some mhs_uri; el_prefix := Some "mhs"; el_name := "Sidecar";
       el_nsdefs := MH_NAMESPACES; el_scope := MH_NAMESPACES;
       el_attrib := [("version", MHS_VERSION)]; el_text := None |}.
Proof. reflexivity. Qed.

Lemma category_node_eq (top : string) :
  category_node top
  = {| el_ns := Some mhs_uri; el_prefix := Some "mhs"; el_name := top;
       el_nsdefs := []; el_scope := MH_NAMESPACES;
       el_attrib := []; el_text := None |}.
Proof. reflexivity. Qed.

Lemma field_node_Technical (f : string * pyval) :
  field_node "Technical" f
  = {| el_ns := Some mh_uri; el_prefix := Some "mh"; el_name := f.1;
       el_nsdefs := []; el_scope := MH_NAMESPACES;
       el_attrib := []; el_text := text_of f.2 |}.
Proof. reflexivity. Qed.

Lemma field_node_Dynamic (f : string * pyval) :
  field_node "Dynamic" f
  = {| el_ns := None; el_prefix := None; el_name := f.1;
       el_nsdefs := []; el_scope := MH_NAMESPACES;
       el_attrib := []; el_text := text_of f.2 |}.
Proof. reflexivity. Qed.

Lemma field_node_name_text (top : string) (f : string * pyval) :
  el_name (field_node top f) = f.1 /\ el_text (field_node top f) = text_of f.2.
Proof.
  unfold field_node, etree.new_node.
  by destruct (etree.bind_ns _ _).
Qed.

(** C1, as amended.  For every metadata mapping whose top-level keys are all
    among [Dynamic] and [Technical], whose field names are plain names of
    XML elements (not empty, not in Clark notation, accepted by lxml) and
    whose values are strings that lxml accepts as text, [build] produces a
    document in which every category is an element in the [mhs] namespace,
    holding exactly one element per field, in the order of the fields: an
    element in the [mh] namespace under [Technical], an element without
    namespace under [Dynamic], whose text is the value of the field. *)
Theorem build_field_namespaces (metadata_dict : dict) (w : world) :
  valid_metadata metadata_dict = true ->
  exists w' t,
    build metadata_dict w = (Ok tt, w')
    /\ held_document w' = Some t
    /\ length (xml_kids t) = length metadata_dict
    /\ forall i top fields,
         metadata_dict !! i = Some (top, VDict fields) ->
         exists category,
           xml_kids t !! i = Some category
           /\ el_ns (xml_node category) = Some mhs_uri
           /\ el_prefix (xml_node category) = Some "mhs"
           /\ el_name (xml_node category) = top
           /\ length (xml_kids category) = length fields
           /\ forall j sub val,
                fields !! j = Some (sub, VStr val) ->
                exists field,
                  xml_kids category !! j = Some field
                  /\ el_name (xml_node field) = sub
                  /\ el_text (xml_node field) = Some val
                  /\ xml_kids field = []
                  /\ (top = "Technical" ->
                      el_ns (xml_node field) = Some mh_uri
                      /\ el_prefix (xml_node field) = Some "mh")
                  /\ (top = "Dynamic" ->
                      el_ns (xml_node field) = None
                      /\ el_prefix (xml_node field) = None).
Proof.
  intros Hvalid.
  destruct (build_valid metadata_dict w Hvalid) as (w' & Hrun & _ & _ & _ & _ & Hheld).
  destruct (valid_metadata_spec _ Hvalid) as [Hnd _].
  exists w', (document_of metadata_dict). split; [done|]. split; [done|]. split.
  - cbn. unfold keys. by rewrite !length_fmap.
  - intros i top fields Hi.
    destruct (document_kid metadata_dict i top _ Hnd Hi) as [Hkid Hget].
    exists (category_tree metadata_dict top).
    split; [done|]. cbn [category_tree xml_node xml_kids].
    rewrite category_node_eq. cbn [el_ns el_prefix el_name].
    split; [done|]. split; [done|]. split; [done|]. split.
    + unfold fields_of. by rewrite Hget, length_fmap.
    + intros j sub val Hj. exists (field_tree top (sub, VStr val)).
      split; [by eapply (category_kid metadata_dict top fields)|].
      cbn [field_tree xml_node xml_kids].
      destruct (field_node_name_text top (sub, VStr val)) as [-> ->].
      split; [done|]. split; [done|]. split; [done|].
      split; intros ->; [by rewrite field_node_Technical | by rewrite field_node_Dynamic].
Qed.

(** C2.  For every metadata mapping with a top-level key outside
    [Dynamic] and [Technical], [build] raises the assertion error that names
    the first such key; the check of the keys runs before anything else, so
    that the object store is as it was, no element having been made, and
    the builder holds the document it held before. *)
Theorem build_unknown_category (metadata_dict : dict) (w : world)
    (offending : string) :
  offending ∈ keys metadata_dict ->
  offending ∉ ALLOWED_NODES ->
  exists before k after,
    keys metadata_dict = (before ++ k :: after)
    /\ Forall (fun k' => k' ∈ ALLOWED_NODES) before
    /\ (k ∉ ALLOWED_NODES)
    /\ check_metadata_dict metadata_dict w
       = (Raise (AssertionError ("Unknown sidecar node: " +:+ dq +:+ k +:+ dq)), w)
    /\ build metadata_dict w
       = (Raise (AssertionError ("Unknown sidecar node: " +:+ dq +:+ k +:+ dq)), w)
    /\ store (build metadata_dict w).2 = store w
    /\ held_document (build metadata_dict w).2 = held_document w.
Proof.
  intros Hin Hnot.
  destruct (first_unknown (keys metadata_dict)) as (before & k & after & Hkeys & Hbefore & Hk).
  { apply Exists_exists. eauto. }
  assert (Hcheck : check_metadata_dict metadata_dict w = (Raise (unknown_node k), w)).
  { unfold check_metadata_dict. rewrite Hkeys. by apply check_keys_fail. }
  assert (Hbuild : build metadata_dict w = (Raise (unknown_node k), w)).
  { unfold build. by erewrite bind_raise. }
  exists before, k, after. rewrite Hbuild. by repeat split.
Qed.

(** C3.  For every valid metadata mapping, after [build] the serialised
    output is one XML document: the declaration
    [<?xml version='1.0' encoding='UTF-8'?>], which lxml writes with single
    quotes, and a line break, then the single root element [mhs:Sidecar],
    in the [mhs] namespace, with the attribute [version] set to 19.4 and the
    declarations of the prefixes [mhs] and [mh], whose URIs both hold that
    version. *)
Theorem build_serialized_document (metadata_dict : dict) (w : world)
    (pretty : bool) :
  valid_metadata metadata_dict = true ->
  exists w' t out,
    build metadata_dict w = (Ok tt, w')
    /\ held_document w' = Some t
    /\ to_bytes pretty w' = (Ok (list_byte_of_string out), w')
    /\ to_string pretty w' = (Ok out, w')
    /\ out = "<?xml version='1.0' encoding='UTF-8'?>" +:+ Output.newline
             +:+ Output.write_node pretty 0 t +:+ Output.nl pretty
    /\ el_ns (xml_node t)
       = Some ("https://zeticon.mediahaven.com/metadata/" +:+ "19.4" +:+ "/mhs/")
    /\ el_prefix (xml_node t) = Some "mhs"
    /\ el_name (xml_node t) = "Sidecar"
    /\ el_attrib (xml_node t) = [("version", "19.4")]
    /\ el_nsdefs (xml_node t)
       = [("mhs", "https://zeticon.mediahaven.com/metadata/" +:+ "19.4" +:+ "/mhs/");
          ("mh", "https://zeticon.mediahaven.com/metadata/" +:+ "19.4" +:+ "/mh/")]
    /\ exists rest,
         Output.write_node pretty 0 t
         = "<mhs:Sidecar"
           +:+ " xmlns:mhs=" +:+ dq
           +:+ "https://zeticon.mediahaven.com/metadata/19.4/mhs/" +:+ dq
           +:+ " xmlns:mh=" +:+ dq
           +:+ "https://zeticon.mediahaven.com/metadata/19.4/mh/" +:+ dq
           +:+ " version=" +:+ dq +:+ "19.4" +:+ dq +:+ rest
         /\ ((metadata_dict = [] /\ rest = "/>")
             \/ (metadata_dict <> []
                 /\ exists inner, rest = ">" +:+ inner +:+ "</mhs:Sidecar>")).
Proof.
  intros Hvalid.
  destruct (build_valid metadata_dict w Hvalid) as (w' & Hrun & _ & _ & _ & _ & Hheld).
  pose proof (to_bytes_held w' pretty _ Hheld) as Hbytes.
  exists w', (document_of metadata_dict). eexists.
  split; [done|]. split; [done|]. split; [exact Hbytes|]. split.
  { rewrite to_string_to_bytes, Hbytes. unfold decode_utf8.
    by rewrite string_of_list_byte_of_string. }
  split; [reflexivity|].
  cbn [document_of xml_node]. rewrite root_node_eq. cbn [el_ns el_prefix el_name el_attrib el_nsdefs].
  split; [reflexivity|]. split; [done|]. split; [done|]. split; [reflexivity|].
  split; [reflexivity|].
  destruct (write_node_shape pretty 0 root_node
              (category_tree metadata_dict <$> keys metadata_dict) eq_refl)
    as (rest & Hnode & Hrest).
  exists rest. split.
  - unfold document_of. rewrite Hnode. reflexivity.
  - destruct Hrest as [[Hnil ->]|[Hcons Hinner]].
    + left. split; [|done]. by destruct metadata_dict.
    + right. split; [by intros ->|]. exact Hinner.
Qed.

(** C4.  For every builder that holds a built document and either value of
    [pretty], the bytes of [to_bytes] decoded as UTF-8 are the string of
    [to_string], and encoding that string gives the bytes back.  The builder
    holds such a document after every [build] that has returned, whatever
    the mapping was. *)
Theorem to_string_decodes_to_bytes (w : world) (pretty : bool) :
  (forall t, held_document w = Some t ->
     exists bs,
       to_bytes pretty w = (Ok bs, w)
       /\ to_string pretty w = (Ok (decode_utf8 bs), w)
       /\ list_byte_of_string (decode_utf8 bs) = bs)
  /\ (forall metadata_dict w0,
        build metadata_dict w0 = (Ok tt, w) ->
        exists bs,
          to_bytes pretty w = (Ok bs, w)
          /\ to_string pretty w = (Ok (decode_utf8 bs), w)
          /\ list_byte_of_string (decode_utf8 bs) = bs).
Proof.
  assert (Hheld : forall t, held_document w = Some t ->
     exists bs,
       to_bytes pretty w = (Ok bs, w)
       /\ to_string pretty w = (Ok (decode_utf8 bs), w)
       /\ list_byte_of_string (decode_utf8 bs) = bs).
  { intros t Hheld. pose proof (to_bytes_held w pretty t Hheld) as Hbytes.
    eexists. split; [exact Hbytes|]. split.
    - by rewrite to_string_to_bytes, Hbytes.
    - unfold decode_utf8. apply list_byte_of_string_of_list_byte. }
  split; [exact Hheld|].
  intros metadata_dict w0 Hrun.
  destruct (build_returns_document _ _ _ Hrun) as [t Ht]. by apply (Hheld t).
Qed.

(** C6.  For every valid metadata mapping, the category elements of the
    built document follow the order of the keys of the mapping, and the
    field elements of each category the order of its items. *)
Theorem build_preserves_order (metadata_dict : dict) (w : world) :
  valid_metadata metadata_dict = true ->
  exists w' t,
    build metadata_dict w = (Ok tt, w')
    /\ held_document w' = Some t
    /\ (fun category => el_name (xml_node category)) <$> xml_kids t
       = keys metadata_dict
    /\ forall i top fields,
         metadata_dict !! i = Some (top, VDict fields) ->
         exists category,
           xml_kids t !! i = Some category
           /\ (fun field => (el_name (xml_node field), el_text (xml_node field)))
                <$> xml_kids category
              = (fun f => (f.1, text_of f.2)) <$> fields.
Proof.
  intros Hvalid.
  destruct (build_valid metadata_dict w Hvalid) as (w' & Hrun & _ & _ & _ & _ & Hheld).
  destruct (valid_metadata_spec _ Hvalid) as [Hnd _].
  exists w', (document_of metadata_dict). split; [done|]. split; [done|]. split.
  - cbn [document_of xml_kids]. rewrite <- list_fmap_compose.
    rewrite <- (list_fmap_id (keys metadata_dict)) at 2.
    apply list_fmap_ext. intros _ top _. cbn. by rewrite category_node_eq.
  - intros i top fields Hi.
    destruct (document_kid metadata_dict i top _ Hnd Hi) as [Hkid Hget].
    exists (category_tree metadata_dict top). split; [done|].
    cbn [category_tree xml_kids]. unfold fields_of. rewrite Hget.
    rewrite <- list_fmap_compose. apply list_fmap_ext. intros _ f _.
    unfold compose. cbn [field_tree xml_node].
    by destruct (field_node_name_text top f) as [-> ->].
Qed.

(** C7.  For every builder that has been constructed and on which no
    [build] has returned, [to_bytes] and [to_string] raise at once, with the
    error lxml has for serialising [None], and leave everything as it is. *)
Theorem serialize_before_build (w : world) (pretty : bool) :
  never_built w ->
  to_bytes pretty w
  = (Raise (TypeError "Type 'NoneType' cannot be serialized."), w)
  /\ to_string pretty w
     = (Raise (TypeError "Type 'NoneType' cannot be serialized."), w).
Proof.
  intros Hnone%never_built_none.
  rewrite to_string_to_bytes, (to_bytes_none w pretty Hnone). done.
Qed.

(** C8.  For every state of the builder and every metadata mapping, if
    [build] raises, for whatever reason, the builder holds what it held
    before the call: [self.sidecar] is assigned last, every object that was
    in the store is as it was, and the held document reads and serialises
    as before. *)
Theorem build_failure_keeps_document (metadata_dict : dict) (w w' : world)
    (e : exn) :
  build metadata_dict w = (Raise e, w') ->
  self w' = self w
  /\ (forall l o, store w !! l = Some o -> store w' !! l = Some o)
  /\ (forall t, held_document w = Some t -> held_document w' = Some t)
  /\ (sidecar (self w) = None -> held_document w' = None)
  /\ (forall pretty bs,
        to_bytes pretty w = (Ok bs, w) -> to_bytes pretty w' = (Ok bs, w')).
Proof.
  intros Hrun. destruct (build_steady metadata_dict w) as (Hlen & Hkeep & Hself).
  rewrite Hrun in Hlen, Hkeep, Hself. cbn in Hlen, Hkeep, Hself.
  split; [done|]. split; [done|]. split; [|split].
  - intros t. by apply held_document_kept.
  - intros Hnone. unfold held_document. by rewrite Hself, Hnone.
  - intros pretty bs Hbytes.
    apply to_bytes_ok_inv in Hbytes as (_ & t & Hheld & ->).
    apply to_bytes_held. by apply (held_document_kept w).
Qed.

Lemma append_nil_r (a : string) : a +:+ "" = a.
Proof.
  induction a as [|x a IH]; [done|].
  change (String x (a +:+ "") = String x a). by rewrite IH.
Qed.

(** C10, as amended.  For every valid metadata mapping (every top-level key
    is recognized and every category is a dict of fields that lxml accepts)
    in which a category maps to an empty dict, [build] returns and the
    document has the element of that category, in the [mhs] namespace, with
    no child and no text: it is written as an empty element. *)
Theorem build_empty_category (metadata_dict : dict) (w : world)
    (i : nat) (top : string) :
  valid_metadata metadata_dict = true ->
  metadata_dict !! i = Some (top, VDict []) ->
  exists w' t category,
    build metadata_dict w = (Ok tt, w')
    /\ held_document w' = Some t
    /\ xml_kids t !! i = Some category
    /\ el_ns (xml_node category) = Some mhs_uri
    /\ el_prefix (xml_node category) = Some "mhs"
    /\ el_name (xml_node category) = top
    /\ el_text (xml_node category) = None
    /\ xml_kids category = []
    /\ forall format level,
         Output.write_node format level category = "<mhs:" +:+ top +:+ "/>".
Proof.
  intros Hvalid Hi.
  destruct (build_valid metadata_dict w Hvalid) as (w' & Hrun & _ & _ & _ & _ & Hheld).
  destruct (valid_metadata_spec _ Hvalid) as [Hnd _].
  destruct (document_kid metadata_dict i top _ Hnd Hi) as [Hkid Hget].
  exists w', (document_of metadata_dict), (category_tree metadata_dict top).
  split; [done|]. split; [done|]. split; [done|].
  unfold category_tree, fields_of. rewrite Hget, category_node_eq.
  cbn [fmap list_fmap xml_node xml_kids el_ns el_prefix el_name el_text].
  repeat (split; [done|]).
  intros format level. cbn [Output.write_node el_text].
  unfold Output.start_tag, Output.qname. cbn [el_prefix el_name el_nsdefs el_attrib].
  cbn [String.eqb Output.concat_map foldr].
  change ("<" +:+ ("mhs" +:+ ":" +:+ top) +:+ "" +:+ "")
    with ("<mhs:" +:+ (top +:+ "" +:+ "")).
  by rewrite !append_nil_r.
Qed.

End sidecar.

(** ** The statements on the sample inputs *)

Lemma build_field_namespaces_witness :
  exists w' t,
    @build Reference.lxml Samples.metadata Samples.fresh = (Ok tt, w')
    /\ @held_document w' = Some t
    /\ length (xml_kids t) = 2.
Proof.
  destruct (@build_field_namespaces Reference.lxml Samples.metadata Samples.fresh)
    as (w' & t & Hrun & Hheld & Hlen & _); [reflexivity|].
  exists w', t. auto.
Defined.

Lemma build_unknown_category_witness :
  exists k,
    (k ∉ ALLOWED_NODES)
    /\ @build Reference.lxml Samples.unknown_category Samples.fresh
       = (Raise (AssertionError ("Unknown sidecar node: " +:+ dq +:+ k +:+ dq)),
          Samples.fresh).
Proof.
  destruct (@build_unknown_category Reference.lxml Samples.unknown_category
              Samples.fresh "Descriptive")
    as (before & k & after & _ & _ & Hk & _ & Hbuild & _).
  - apply (bool_decide_unpack _). reflexivity.
  - apply (bool_decide_unpack _). reflexivity.
  - exists k. split; [exact Hk | exact Hbuild].
Defined.

Lemma build_serialized_document_witness :
  exists w' t,
    @build Reference.lxml Samples.metadata Samples.fresh = (Ok tt, w')
    /\ @to_string true w'
       = (Ok ("<?xml version='1.0' encoding='UTF-8'?>" +:+ Output.newline
              +:+ Output.write_node true 0 t +:+ Output.newline),
          w').
Proof.
  destruct (@build_serialized_document Reference.lxml Samples.metadata
              Samples.fresh true)
    as (w' & t & out & Hrun & _ & _ & Hstring & Hdecl & _); [reflexivity|].
  exists w', t. split; [exact Hrun|]. rewrite Hstring, Hdecl. reflexivity.
Defined.

Lemma to_string_decodes_to_bytes_witness :
  exists bs,
    to_bytes false Samples.built = (Ok bs, Samples.built)
    /\ to_string false Samples.built = (Ok (decode_utf8 bs), Samples.built).
Proof.
  destruct (@to_string_decodes_to_bytes Reference.lxml Samples.built false)
    as [Hheld _].
  destruct (Hheld (@document_of Reference.lxml Samples.metadata))
    as (bs & Hbytes & Hstring & _); [reflexivity|].
  exists bs. auto.
Defined.

Lemma build_preserves_order_witness :
  exists w' t,
    @build Reference.lxml Samples.metadata Samples.fresh = (Ok tt, w')
    /\ held_document w' = Some t
    /\ (fun category => el_name (xml_node category)) <$> xml_kids t
       = ["Dynamic"; "Technical"].
Proof.
  destruct (@build_preserves_order Reference.lxml Samples.metadata Samples.fresh)
    as (w' & t & Hrun & Hheld & Horder & _); [reflexivity|].
  exists w', t. auto.
Defined.

Lemma serialize_before_build_witness :
  to_bytes true (SidecarBuilder_init VNone Samples.built).2
  = (Raise (TypeError "Type 'NoneType' cannot be serialized."),
     (SidecarBuilder_init VNone Samples.built).2).
Proof.
  apply (@serialize_before_build Reference.lxml
           (SidecarBuilder_init VNone Samples.built).2 true).
  apply never_built_init.
Defined.

Lemma build_failure_keeps_document_witness :
  self (@build Reference.lxml Samples.malformed_value Samples.built).2
  = self Samples.built
  /\ held_document (@build Reference.lxml Samples.malformed_value Samples.built).2
     = Some (@document_of Reference.lxml Samples.metadata).
Proof.
  destruct (@build_failure_keeps_document Reference.lxml Samples.malformed_value
              Samples.built
              (@build Reference.lxml Samples.malformed_value Samples.built).2
              (TypeError "Argument must be bytes or unicode"))
    as (Hself & _ & Hheld & _); [reflexivity|].
  split; [exact Hself|]. apply Hheld. reflexivity.
Defined.

Lemma build_empty_category_witness :
  exists w' t category,
    @build Reference.lxml Samples.empty_category Samples.fresh = (Ok tt, w')
    /\ held_document w' = Some t
    /\ xml_kids t !! 1 = Some category
    /\ xml_kids category = []
    /\ Output.write_node false 1 category = "<mhs:Dynamic/>".
Proof.
  destruct (@build_empty_category Reference.lxml Samples.empty_category
              Samples.fresh 1 "Dynamic")
    as (w' & t & category & Hrun & Hheld & Hkid & _ & _ & _ & _ & Hkids & Hwrite);
    [reflexivity | reflexivity |].
  exists w', t, category. repeat split; auto.
Defined.

(** C1 as it is stated fails on a field name that is not the name of an XML
    element: the top-level key is recognized, the value is a string, and
    [build] raises the [ValueError] of [etree.SubElement], so that no
    document is produced.  A name with a blank is refused by the check of
    names, an empty name before it. *)
Lemma build_field_namespaces_counterexample :
  Forall (fun k => k ∈ ALLOWED_NODES) (keys Samples.spaced_field)
  /\ @build Reference.lxml Samples.spaced_field Samples.fresh
     = (Raise (ValueError "Invalid tag name"),
        (@build Reference.lxml Samples.spaced_field Samples.fresh).2)
  /\ @held_document (@build Reference.lxml Samples.spaced_field Samples.fresh).2
     = None
  /\ Forall (fun k => k ∈ ALLOWED_NODES) (keys Samples.empty_field)
  /\ @build Reference.lxml Samples.empty_field Samples.fresh
     = (Raise (ValueError "Empty tag name"),
        (@build Reference.lxml Samples.empty_field Samples.fresh).2).
Proof.
  split; [repeat constructor|]. split; [reflexivity|]. split; [reflexivity|].
  split; [repeat constructor | reflexivity].
Qed.

(** C3 as it is stated fails on the quotes of the declaration: the output
    for a valid mapping starts with the declaration between single quotes,
    not with [<?xml version=], [1.0] between double quotes, and so on. *)
Lemma build_serialized_document_counterexample :
  @valid_metadata Reference.lxml Samples.metadata = true
  /\ exists w' out,
       (@build Reference.lxml Samples.metadata;; to_string false) Samples.fresh
       = (Ok out, w')
       /\ String.prefix
            ("<?xml version=" +:+ dq +:+ "1.0" +:+ dq
             +:+ " encoding=" +:+ dq +:+ "UTF-8" +:+ dq +:+ "?>") out
          = false
       /\ String.prefix "<?xml version='1.0' encoding='UTF-8'?>" out = true.
Proof.
  split; [reflexivity|]. eexists _, _.
  split; [vm_compute; reflexivity|]. split; reflexivity.
Qed.

(** A field name in Clark notation is a tag with a namespace for lxml, under
    [Dynamic] as anywhere else. *)
Example clark_field_name :
  exists w' root category field,
    @build Reference.lxml Samples.clark_field Samples.fresh = (Ok tt, w')
    /\ held_document w' = Some (XNode root [XNode category [field]])
    /\ el_name category = "Dynamic"
    /\ el_name (xml_node field) = "title"
    /\ el_ns (xml_node field) = Some "urn:x"
    /\ Output.write_node false 2 field
       = "<ns0:title xmlns:ns0=" +:+ dq +:+ "urn:x" +:+ dq +:+ ">Foo</ns0:title>".
Proof. do 4 eexists. repeat split; reflexivity. Qed.

(** C10 as it is stated fails when another key of the mapping is not
    recognized: [Dynamic] maps to an empty dict, and [build] raises. *)
Lemma build_empty_category_counterexample :
  Samples.empty_and_unknown !! 0 = Some ("Dynamic", VDict [])
  /\ @build Reference.lxml Samples.empty_and_unknown Samples.fresh
     = (Raise (AssertionError ("Unknown sidecar node: " +:+ dq +:+ "Descriptive" +:+ dq)),
        Samples.fresh).
Proof. split; reflexivity. Qed.

(** ** The examples of the specification *)

Example technical_md5 :
  (@build Reference.lxml Samples.only_technical;; to_string false) Samples.fresh
  = (Ok ("<?xml version='1.0' encoding='UTF-8'?>" +:+ Output.newline
         +:+ "<mhs:Sidecar xmlns:mhs=" +:+ dq
         +:+ "https://zeticon.mediahaven.com/metadata/19.4/mhs/" +:+ dq
         +:+ " xmlns:mh=" +:+ dq
         +:+ "https://zeticon.mediahaven.com/metadata/19.4/mh/" +:+ dq
         +:+ " version=" +:+ dq +:+ "19.4" +:+ dq +:+ ">"
         +:+ "<mhs:Technical><mh:md5>abc123</mh:md5></mhs:Technical>"
         +:+ "</mhs:Sidecar>"),
     (@build Reference.lxml Samples.only_technical Samples.fresh).2).
Proof. reflexivity. Qed.

Example dynamic_title :
  (@build Reference.lxml Samples.only_dynamic;; to_string true) Samples.fresh
  = (Ok ("<?xml version='1.0' encoding='UTF-8'?>" +:+ Output.newline
         +:+ "<mhs:Sidecar xmlns:mhs=" +:+ dq
         +:+ "https://zeticon.mediahaven.com/metadata/19.4/mhs/" +:+ dq
         +:+ " xmlns:mh=" +:+ dq
         +:+ "https://zeticon.mediahaven.com/metadata/19.4/mh/" +:+ dq
         +:+ " version=" +:+ dq +:+ "19.4" +:+ dq +:+ ">" +:+ Output.newline
         +:+ "  <mhs:Dynamic>" +:+ Output.newline
         +:+ "    <title>Foo</title>" +:+ Output.newline
         +:+ "  </mhs:Dynamic>" +:+ Output.newline
         +:+ "</mhs:Sidecar>" +:+ Output.newline),
     (@build Reference.lxml Samples.only_dynamic Samples.fresh).2).
Proof. reflexivity. Qed.

(** A value that is not a string, or a category that is not a dict, makes
    [build] raise after elements have been made; the builder holds what it
    held. *)
Example malformed_value_raises :
  (@build Reference.lxml Samples.malformed_value Samples.built).1
  = Raise (TypeError "Argument must be bytes or unicode")
  /\ (@build Reference.lxml Samples.malformed_category Samples.built).1
     = Raise (AttributeError "object has no attribute 'items'")
  /\ length (store (@build Reference.lxml Samples.malformed_value Samples.built).2)
     = length (store Samples.built) + 6
  /\ self (@build Reference.lxml Samples.malformed_value Samples.built).2
     = self Samples.built.
Proof. repeat split. Qed.

(** * Further properties of the code *)

(** ** try_to_find_md5 and get_from_event *)

Section extractor_more.
Context `{Unicode}.

Lemma rbind_Ok_inv {A B} (r : result A) (k : A -> result B) (b : B) :
  rbind r k = Ok b -> exists a, r = Ok a /\ k a = Ok b.
Proof. destruct r as [a|e]; cbn; [eauto | done]. Qed.

Lemma try_keys_dict (candidates : list string) (d : dict) :
  exists v,
    try_keys candidates (VDict d) = Ok v
    /\ (v = VStr "" \/ exists k, k ∈ candidates /\ dict_get d k = Some v).
Proof.
  induction candidates as [|key rest (v & Hv & Hfrom)]; cbn.
  - exists (VStr ""). auto.
  - destruct (dict_mem key d) eqn:Hmem.
    + apply dict_mem_get in Hmem as [v' Hv']. exists v'. rewrite Hv'.
      split; [done|]. right. exists key. split; [left | done].
    + exists v. split; [done|].
      destruct Hfrom as [->|(k & Hk & Hget)]; [by left|].
      right. exists k. split; [by right | done].
Qed.

(** X1.  On a dict [try_to_find_md5] never raises: it returns the empty
    string or a value that the dict holds under one of the candidate keys,
    as it is stored, whatever its type. *)
Theorem try_to_find_md5_dict_returns (object_metadata : dict) :
  exists v,
    try_to_find_md5 (VDict object_metadata) = Ok v
    /\ (v = VStr ""
        \/ exists k, k ∈ POSSIBLE_KEYS /\ dict_get object_metadata k = Some v).
Proof. apply try_keys_dict. Qed.

Lemma try_keys_agree (candidates : list string) (d d' : dict) :
  (forall k, k ∈ candidates -> dict_get d k = dict_get d' k) ->
  try_keys candidates (VDict d) = try_keys candidates (VDict d').
Proof.
  induction candidates as [|key rest IH]; intros Hagree; cbn; [done|].
  assert (Hkey : dict_get d key = dict_get d' key) by (apply Hagree; left).
  assert (Hmem : dict_mem key d = dict_mem key d').
  { destruct (dict_get d key) as [v|] eqn:Hget.
    - rewrite (dict_mem_Some _ _ _ Hget). symmetry. by eapply dict_mem_Some.
    - rewrite (dict_mem_None _ _ Hget). symmetry. by apply dict_mem_None. }
  rewrite Hmem, Hkey. destruct (dict_mem key d'); [done|].
  apply IH. intros k Hk. apply Hagree. by right.
Qed.

(** X2.  [try_to_find_md5] reads the three candidate keys and nothing else:
    two dicts that agree on them get the same answer. *)
Theorem try_to_find_md5_reads_candidates (d d' : dict) :
  (forall k, k ∈ POSSIBLE_KEYS -> dict_get d k = dict_get d' k) ->
  try_to_find_md5 (VDict d) = try_to_find_md5 (VDict d').
Proof. apply try_keys_agree. Qed.

Example try_to_find_md5_reads_candidates_witness :
  try_to_find_md5 (VDict [("md5sum", VStr "a"); ("etag", VStr "b")])
  = try_to_find_md5 (VDict [("size", VInt 3); ("md5sum", VStr "a")]).
Proof.
  apply try_to_find_md5_reads_candidates. intros k Hk.
  repeat (apply elem_of_cons in Hk as [->|Hk]; [reflexivity|]).
  inversion Hk.
Defined.

(** X3.  On anything but a dict (the metadata of an object may be [null], a
    string, a list) [try_to_find_md5] raises [AttributeError] at the first
    candidate: the empty string of the docstring is for dicts only. *)
Theorem try_to_find_md5_not_a_dict (object_metadata : pyval) :
  (forall d, object_metadata <> VDict d) ->
  exists msg, try_to_find_md5 object_metadata = Raise (AttributeError msg).
Proof.
  intros Hnot. destruct object_metadata as [| | | | |d];
    try (eexists; reflexivity).
  by destruct (Hnot d).
Qed.

Example try_to_find_md5_not_a_dict_witness :
  exists msg, try_to_find_md5 VNone = Raise (AttributeError msg).
Proof. apply try_to_find_md5_not_a_dict. intros d. discriminate. Defined.

(** X4.  An answer for [host] is made of the answer for [bucket]: whenever
    [get_from_event] returns a host, the bucket of the same event is a
    string and the host is that string, a dot, the name of the domain, and
    [.viaa.be]. *)
Theorem get_from_event_host_of_bucket (event : pyval) (name : string)
    (host : pyval) :
  lower name = "host" ->
  get_from_event event name = Ok host ->
  exists bucket_name domain_name,
    get_from_event event "bucket" = Ok (VStr bucket_name)
    /\ host = VStr (bucket_name +:+ "." +:+ domain_name +:+ "." +:+ BASE_DOMAIN).
Proof.
  intros Hname. unfold get_from_event. rewrite Hname. cbn.
  intros (records & Hrecords & Hrun)%rbind_Ok_inv.
  apply rbind_Ok_inv in Hrun as (record & Hrecord & Hrun).
  apply rbind_Ok_inv in Hrun as (s3_sub & Hs3 & Hrun).
  apply rbind_Ok_inv in Hrun as (b & Hb & Hrun).
  apply rbind_Ok_inv in Hrun as (bn & Hbn & Hrun).
  apply rbind_Ok_inv in Hrun as (d & _ & Hrun).
  apply rbind_Ok_inv in Hrun as (dn & _ & Hrun).
  apply rbind_Ok_inv in Hrun as (h & Hjoin & [= <-]).
  unfold str_join in Hjoin.
  destruct bn as [| | |bucket_name| |]; try done.
  destruct dn as [| | |domain_name| |]; try done.
  cbn in Hjoin. injection Hjoin as <-. exists bucket_name, domain_name.
  rewrite lower_isascii by reflexivity. cbn.
  rewrite Hrecords. cbn. rewrite Hrecord. cbn. rewrite Hs3. cbn.
  rewrite Hb. cbn. by rewrite Hbn.
Qed.

(** X5.  [get_from_event] reads the event through [Records[0]] only: two
    events whose [Records] start with the same record get the same answer,
    whatever else they hold. *)
Theorem get_from_event_first_record (event event' records records' : pyval)
    (name : string) :
  getitem event "Records" = Ok records ->
  getitem event' "Records" = Ok records' ->
  getitem0 records = getitem0 records' ->
  get_from_event event name = get_from_event event' name.
Proof.
  intros Hrecords Hrecords' Hfirst. unfold get_from_event.
  rewrite Hrecords, Hrecords'. cbn [rbind]. by rewrite Hfirst.
Qed.

(** X6.  Every recognized field is read below [Records[0]['s3']], which is
    looked up first: an event without [Records] raises [KeyError] and an
    event whose [Records] is an empty list raises [IndexError], whichever
    of the five fields is asked for. *)
Theorem get_from_event_no_record (event : dict) (name : string) :
  lower name ∈ event_keys ->
  (dict_get event "Records" = None ->
   get_from_event (VDict event) name = Raise (KeyError "Records"))
  /\ (dict_get event "Records" = Some (VList []) ->
      get_from_event (VDict event) name
      = Raise (IndexError "list index out of range")).
Proof.
  intros Hname. unfold get_from_event. rewrite bool_decide_eq_true_2 by done.
  split; intros Hget; cbn; by rewrite Hget.
Qed.


End extractor_more.

Lemma get_from_event_host_of_bucket_witness :
  exists bucket_name domain_name,
    @get_from_event Reference.unicode Samples.event "bucket"
    = Ok (VStr bucket_name)
    /\ VStr "MAM_HighresVideo.s3.viaa.be"
       = VStr (bucket_name +:+ "." +:+ domain_name +:+ "." +:+ BASE_DOMAIN).
Proof.
  apply (@get_from_event_host_of_bucket Reference.unicode Samples.event "Host");
    reflexivity.
Defined.

Lemma get_from_event_first_record_witness :
  @get_from_event Reference.unicode Samples.event "tenant"
  = @get_from_event Reference.unicode Samples.event_two_records "tenant".
Proof.
  eapply (@get_from_event_first_record Reference.unicode); reflexivity.
Defined.

Lemma get_from_event_no_record_witness :
  @get_from_event Reference.unicode (VDict []) "MD5" = Raise (KeyError "Records")
  /\ @get_from_event Reference.unicode Samples.event_no_records "Tenant"
     = Raise (IndexError "list index out of range").
Proof.
  split.
  - apply (@get_from_event_no_record Reference.unicode [] "MD5");
      [apply (bool_decide_unpack _) |]; reflexivity.
  - apply (@get_from_event_no_record Reference.unicode
             [("Records", VList [])] "Tenant");
      [apply (bool_decide_unpack _) |]; reflexivity.
Defined.


(** ** SidecarBuilder *)

Section builder_more.
Context `{Lxml}.

(** X8.  [check_metadata_dict] passes exactly when every top-level key is
    [Dynamic] or [Technical], looks at nothing but the keys, and never
    changes the builder or the store. *)
Theorem check_metadata_dict_passes_iff (metadata_dict : dict) (w : world) :
  (check_metadata_dict metadata_dict w).2 = w
  /\ ((check_metadata_dict metadata_dict w).1 = Ok tt
      <-> Forall (fun k => k ∈ ALLOWED_NODES) (keys metadata_dict)).
Proof.
  split; [apply check_metadata_dict_world|]. split.
  - intros Hok. apply Forall_forall. intros k0 Hk0.
    destruct (decide (k0 ∈ ALLOWED_NODES)) as [|Hnot]; [done|]. exfalso.
    destruct (first_unknown (keys metadata_dict))
      as (before & k & after & Hkeys & Hbefore & Hk).
    { apply Exists_exists. eauto. }
    unfold check_metadata_dict in Hok. rewrite Hkeys in Hok.
    by rewrite (check_keys_fail before after k w Hbefore Hk) in Hok.
  - intros Hall. unfold check_metadata_dict. by rewrite check_keys_ok.
Qed.

(** X9.  What a builder serialises after [build] depends on the mapping
    only: whatever the builder held and whatever the store held before,
    [build] on a valid mapping followed by [to_bytes] returns the same
    bytes. *)
Theorem build_bytes_depend_on_mapping_only (metadata_dict : dict)
    (w1 w2 : world) (pretty : bool) :
  valid_metadata metadata_dict = true ->
  exists bs,
    ((build metadata_dict;; to_bytes pretty) w1).1 = Ok bs
    /\ ((build metadata_dict;; to_bytes pretty) w2).1 = Ok bs.
Proof.
  intros Hvalid.
  destruct (build_valid metadata_dict w1 Hvalid) as (w1' & Hrun1 & _ & _ & _ & _ & Hheld1).
  destruct (build_valid metadata_dict w2 Hvalid) as (w2' & Hrun2 & _ & _ & _ & _ & Hheld2).
  eexists. split.
  - erewrite bind_ok; [|exact Hrun1]. by rewrite (to_bytes_held _ _ _ Hheld1).
  - erewrite bind_ok; [|exact Hrun2]. by rewrite (to_bytes_held _ _ _ Hheld2).
Qed.

Lemma field_of_field_tree (top : string) (f : string * pyval) :
  valid_field f = true -> field_of (field_tree top f) = f.
Proof.
  intros (val & Hval & _)%valid_field_spec. destruct f as [sub v].
  cbn in Hval. subst v. unfold field_of, field_tree. cbn [xml_node].
  by destruct (field_node_name_text top (sub, VStr val)) as [-> ->].
Qed.

(** X10.  The built tree gives the mapping back: for every valid mapping,
    the names of the category elements with the names and texts of their
    field elements, in document order, are the mapping that was built. *)
Theorem build_mapping_round_trip (metadata_dict : dict) (w : world) :
  valid_metadata metadata_dict = true ->
  exists w' t,
    build metadata_dict w = (Ok tt, w')
    /\ held_document w' = Some t
    /\ mapping_of t = metadata_dict.
Proof.
  intros Hvalid.
  destruct (build_valid metadata_dict w Hvalid) as (w' & Hrun & _ & _ & _ & _ & Hheld).
  destruct (valid_metadata_spec _ Hvalid) as [Hnd Hcats].
  exists w', (document_of metadata_dict). split; [done|]. split; [done|].
  unfold mapping_of, document_of, keys. cbn [xml_kids].
  rewrite <- !list_fmap_compose.
  etrans; [|apply list_fmap_id].
  apply list_fmap_ext. intros i [top v] Hi. cbn.
  rewrite Forall_forall in Hcats.
  destruct (valid_category_spec _ (Hcats _ (list_elem_of_lookup_2 _ _ _ Hi)))
    as (_ & fields & Hv & Hfields).
  cbn in Hv. subst v.
  destruct (document_kid metadata_dict i top _ Hnd Hi) as [_ Hget].
  unfold category_of, category_tree, fields_of. cbn [xml_node xml_kids].
  rewrite Hget, category_node_eq. cbn [el_name]. do 2 f_equal.
  rewrite <- list_fmap_compose.
  etrans; [|apply list_fmap_id].
  apply list_fmap_ext. intros j f Hj. cbn.
  apply field_of_field_tree.
  rewrite Forall_forall in Hfields. apply Hfields. by eapply list_elem_of_lookup_2.
Qed.

(** X11.  A [build] that returns installs a document made of new objects:
    [self.sidecar] refers to an object that was not in the store before,
    the document below it can be read, [self.ctx] is kept, and every object
    that was in the store, an earlier document among them, is as it was. *)
Theorem build_installs_new_document (metadata_dict : dict) (w w' : world) :
  build metadata_dict w = (Ok tt, w') ->
  exists doc t,
    self w' = {| sidecar := Some doc; ctx := ctx (self w) |}
    /\ length (store w) <= doc
    /\ store w !! doc = None
    /\ held_document w' = Some t
    /\ forall l o, store w !! l = Some o -> store w' !! l = Some o.
Proof.
  intros Hrun.
  destruct (build_steady metadata_dict w) as (_ & Hkeep & Hself).
  rewrite Hrun in Hkeep, Hself. cbn in Hkeep, Hself.
  destruct Hself as (doc & Hdoc & Hself).
  destruct (build_returns_document _ _ _ Hrun) as [t Ht].
  exists doc, t. repeat split; [done | done | | done | done].
  by apply lookup_ge_None.
Qed.

Lemma for_each_app_ok {A} (xs ys : list A) (body : A -> M unit) (w w1 : world) :
  for_each xs body w = (Ok tt, w1) ->
  for_each (xs ++ ys) body w = for_each ys body w1.
Proof.
  revert w. induction xs as [|x xs IH]; intros w Hxs; cbn [for_each app] in *.
  - by injection Hxs as <-.
  - unfold mbind, M_bind in *. destruct (body x w) as [[[]|e] w0]; [|done].
    by apply IH.
Qed.

Lemma keys_app (d d' : dict) : keys (d ++ d') = keys d ++ keys d'.
Proof. unfold keys. apply fmap_app. Qed.

(** The categories before a malformed one, when they are valid, are ready
    for the loop of [build]. *)
Lemma before_ready (metadata_dict before after : dict) (top : string) (v : pyval) :
  metadata_dict = before ++ (top, v) :: after ->
  NoDup (keys metadata_dict) ->
  Forall (fun kv => valid_category kv = true) before ->
  Forall (category_ready metadata_dict) (keys before).
Proof.
  intros -> Hnd Hbefore. apply Forall_forall. intros k Hk.
  apply list_elem_of_fmap in Hk as ([k' v'] & -> & Hin). cbn.
  rewrite Forall_forall in Hbefore.
  destruct (valid_category_spec _ (Hbefore _ Hin)) as (Hallowed & fields & Hv & Hfields).
  cbn in Hallowed, Hv. subst v'. split; [done|].
  exists fields. split; [|done]. apply dict_get_NoDup; [done|].
  apply elem_of_app. by left.
Qed.

(** [build] as far as the key [top]: the root, the element tree and the
    categories before [top] have been made. *)
Lemma build_reaches_category (metadata_dict before after : dict)
    (top : string) (v : pyval) (w : world) :
  metadata_dict = before ++ (top, v) :: after ->
  NoDup (keys metadata_dict) ->
  Forall (fun k => k ∈ ALLOWED_NODES) (keys metadata_dict) ->
  Forall (fun kv => valid_category kv = true) before ->
  exists (w3 : world) (rcs : list loc),
    let root := length (store w) in
    store w3 !! root = Some (ObjElement root_node rcs)
    /\ top ∈ ALLOWED_NODES
    /\ dict_get metadata_dict top = Some v
    /\ forall (r : result unit) (w' : world),
         for_each (top :: keys after) (fun top =>
           node ← etree.SubElement root (clark mhs_uri top);
           fields ← lift (getitem (VDict metadata_dict) top);
           items ← lift (dict_of fields "items");
           for_each items (fun sub_val =>
             let '(sub, val) := sub_val in
             when (String.eqb top "Technical")
               (e ← etree.SubElement node (clark mh_uri sub);
                etree.set_text e val);;
             when (String.eqb top "Dynamic")
               (e ← etree.SubElement node sub;
                etree.set_text e val))) w3 = (r, w') ->
         forall e, r = Raise e -> build metadata_dict w = (Raise e, w').
Proof.
  intros Hmd Hnd Hallowed Hbefore.
  pose proof (before_ready _ _ _ _ _ Hmd Hnd Hbefore) as Hready.
  assert (Hkeys : keys metadata_dict = keys before ++ top :: keys after).
  { by rewrite Hmd, keys_app. }
  set (n := length (store w)).
  set (w1 := {| store := store w ++ [ObjElement root_node []]; self := self w |}).
  set (w2 := {| store := store w1 ++ [ObjElementTree n]; self := self w1 |}).
  assert (Hroot2 : store w2 !! n = Some (ObjElement root_node [])).
  { subst w2 w1 n. cbn [store].
    rewrite lookup_app_l by (rewrite length_app; cbn; lia).
    rewrite lookup_app_r by lia. by rewrite Nat.sub_diag. }
  assert (Hlen2 : length (store w2) = n + 2).
  { subst w2 w1 n. cbn [store]. rewrite !length_app. cbn. lia. }
  destruct (categories_loop metadata_dict (n + 2) n (keys before) Hready w2 [])
    as (w3 & new & Hrun & _ & Hroot3 & _); [lia | lia | done |].
  exists w3, ([] ++ new). cbn zeta. split; [done|]. split.
  { rewrite Forall_forall in Hallowed. apply Hallowed. rewrite Hkeys.
    apply elem_of_app. right. left. }
  split.
  { apply dict_get_NoDup; [done|]. rewrite Hmd. apply elem_of_app. right. left. }
  intros r w' Hloop e ->. unfold build.
  erewrite bind_ok; [|by apply check_keys_ok].
  erewrite bind_ok; [|apply Element_root_run].
  erewrite bind_ok; cycle 1.
  { apply (ElementTree_run w1 n root_node []). subst w1 n. cbn [store].
    rewrite lookup_app_r by lia. by rewrite Nat.sub_diag. }
  replace (length (store w1)) with (S n)
    by (subst w1 n; cbn [store]; rewrite length_app; cbn; lia).
  erewrite bind_raise; [reflexivity|].
  rewrite Hkeys. erewrite for_each_app_ok; [|exact Hrun]. exact Hloop.
Qed.

(** X12.  A category whose value is not a dict makes [build] raise
    [AttributeError], from [.items()]: the keys have passed the check, the
    categories before it have been built, and the builder holds what it
    held. *)
Theorem build_category_not_a_dict (metadata_dict before after : dict)
    (top : string) (v : pyval) (w : world) :
  metadata_dict = before ++ (top, v) :: after ->
  NoDup (keys metadata_dict) ->
  Forall (fun k => k ∈ ALLOWED_NODES) (keys metadata_dict) ->
  Forall (fun kv => valid_category kv = true) before ->
  (forall fields, v <> VDict fields) ->
  exists msg w',
    build metadata_dict w = (Raise (AttributeError msg), w')
    /\ self w' = self w.
Proof.
  intros Hmd Hnd Hallowed Hbefore Hv.
  destruct (build_reaches_category _ _ _ _ _ w Hmd Hnd Hallowed Hbefore)
    as (w3 & rcs & Hroot3 & Htop & Hget & Hbuild).
  cbn zeta in *.
  pose proof (lookup_lt_Some _ _ _ Hroot3) as Hlt.
  assert (Hbody : exists msg w',
    for_each (top :: keys after) (fun top =>
      node ← etree.SubElement (length (store w)) (clark mhs_uri top);
      fields ← lift (getitem (VDict metadata_dict) top);
      items ← lift (dict_of fields "items");
      for_each items (fun sub_val =>
        let '(sub, val) := sub_val in
        when (String.eqb top "Technical")
          (e ← etree.SubElement node (clark mh_uri sub);
           etree.set_text e val);;
        when (String.eqb top "Dynamic")
          (e ← etree.SubElement node sub;
           etree.set_text e val))) w3 = (Raise (AttributeError msg), w')).
  { do 2 eexists. cbn [for_each]. erewrite bind_raise; [reflexivity|].
    erewrite bind_ok; cycle 1.
    { eapply (SubElement_run w3 _ _ rcs _ (Some mhs_uri) top); [exact Hroot3 | | |].
      - apply getNsTag_clark_mhs. by destruct (allowed_cases top Htop) as [-> | ->].
      - destruct (allowed_cases top Htop) as [-> | ->];
          [apply accepts_Dynamic | apply accepts_Technical].
      - rewrite mhs_uri_eq. apply accepts_mhs_uri. }
    unfold lift, getitem. rewrite Hget.
    unfold mbind at 1, M_bind at 1. cbn beta iota.
    erewrite bind_raise; [reflexivity|].
    destruct v as [| | | | |fields]; try reflexivity. by destruct (Hv fields). }
  destruct Hbody as (msg & w' & Hloop).
  exists msg, w'. pose proof (Hbuild _ _ Hloop _ eq_refl) as Hrun.
  split; [done|].
  destruct (build_steady metadata_dict w) as (_ & _ & Hself).
  by rewrite Hrun in Hself.
Qed.

Lemma set_text_type_error (w : world) (l : loc) (n : node) (cs : list loc)
    (val : pyval) :
  store w !! l = Some (ObjElement n cs) ->
  (forall s, val <> VStr s) -> val <> VNone ->
  etree.set_text l val w
  = (Raise (TypeError "Argument must be bytes or unicode"), w).
Proof.
  intros Hl Hstr Hnone. unfold etree.set_text, get_element.
  unfold mbind at 1, M_bind at 1. rewrite Hl.
  destruct val as [| | |s| |]; try reflexivity; [done | by destruct (Hstr s)].
Qed.

(** An item whose value is neither a string nor [None]: the element is made
    and setting its text raises. *)
Lemma field_step_type_error (top sub : string) (val : pyval) (w : world)
    (node : loc) (cs : list loc) :
  top ∈ ALLOWED_NODES ->
  plain_name_ok sub = true ->
  (forall s, val <> VStr s) -> val <> VNone ->
  store w !! node = Some (ObjElement (category_node top) cs) ->
  exists w',
    (when (String.eqb top "Technical")
       (e ← etree.SubElement node (clark mh_uri sub); etree.set_text e val);;
     when (String.eqb top "Dynamic")
       (e ← etree.SubElement node sub; etree.set_text e val)) w
    = (Raise (TypeError "Argument must be bytes or unicode"), w').
Proof.
  intros Htop (Hne & Hbrace & Hname)%plain_name_ok_spec Hstr Hnone Hnode.
  pose proof (lookup_lt_Some _ _ _ Hnode) as Hlt.
  assert (Hchild : forall (ns : option string),
    (<[node := ObjElement (category_node top) (cs ++ [length (store w)])]>
       (store w ++ [ObjElement (etree.new_node (el_scope (category_node top)) [] ns sub []) []]))
      !! length (store w)
    = Some (ObjElement (etree.new_node (el_scope (category_node top)) [] ns sub []) [])).
  { intros ns. rewrite list_lookup_insert_ne by lia.
    rewrite lookup_app_r by lia. by rewrite Nat.sub_diag. }
  destruct (allowed_cases top Htop) as [-> | ->];
    cbn [String.eqb Ascii.eqb Bool.eqb when]; eexists.
  - change (mret tt : M unit) with (fun w : world => (Ok tt, w)).
    unfold mbind at 1, M_bind at 1. cbn beta iota.
    erewrite bind_ok; cycle 1.
    { eapply (SubElement_run w node _ cs sub None sub);
        [exact Hnode | by apply getNsTag_plain | done | done]. }
    erewrite set_text_type_error; [reflexivity | apply (Hchild None) | done | done].
  - erewrite bind_raise; [reflexivity|].
    erewrite bind_ok; cycle 1.
    { eapply (SubElement_run w node _ cs _ (Some mh_uri) sub);
        [exact Hnode | by apply getNsTag_clark_mh | done |].
      rewrite mh_uri_eq. apply accepts_mh_uri. }
    erewrite set_text_type_error;
      [reflexivity | apply (Hchild (Some mh_uri)) | done | done].
Qed.

(** X13.  A field whose value is neither a string nor [None] makes [build]
    raise [TypeError], from the assignment to [.text]: the categories and
    the fields before it have been built, and the builder holds what it
    held. *)
Theorem build_value_not_a_string (metadata_dict before after : dict)
    (top : string) (fields_before fields_after : dict) (sub : string)
    (val : pyval) (w : world) :
  metadata_dict
  = before ++ (top, VDict (fields_before ++ (sub, val) :: fields_after)) :: after ->
  NoDup (keys metadata_dict) ->
  Forall (fun k => k ∈ ALLOWED_NODES) (keys metadata_dict) ->
  Forall (fun kv => valid_category kv = true) before ->
  Forall (fun f => valid_field f = true) fields_before ->
  plain_name_ok sub = true ->
  (forall s, val <> VStr s) -> val <> VNone ->
  exists msg w',
    build metadata_dict w = (Raise (TypeError msg), w')
    /\ self w' = self w.
Proof.
  intros Hmd Hnd Hallowed Hbefore Hfields Hsub Hstr Hnone.
  destruct (build_reaches_category _ _ _ _ _ w Hmd Hnd Hallowed Hbefore)
    as (w3 & rcs & Hroot3 & Htop & Hget & Hbuild).
  cbn zeta in *.
  pose proof (lookup_lt_Some _ _ _ Hroot3) as Hlt.
  set (w4 := {| store :=
                  <[length (store w) := ObjElement root_node (rcs ++ [length (store w3)])]>
                    (store w3 ++ [ObjElement (category_node top) []]);
                self := self w3 |}).
  assert (Hnode4 : store w4 !! length (store w3)
                   = Some (ObjElement (category_node top) [])).
  { subst w4. cbn [store]. rewrite list_lookup_insert_ne by lia.
    rewrite lookup_app_r by lia. by rewrite Nat.sub_diag. }
  pose proof (fields_loop top fields_before Htop Hfields w4 _ [] Hnode4) as Hloop5.
  set (w5 := {| store := _; self := self w4 |}) in Hloop5.
  destruct (field_step_type_error top sub val w5 (length (store w3))
              ([] ++ seq (length (store w4)) (length fields_before)))
    as [w6 Hstep]; [done | done | done | done | |].
  { subst w5. cbn [store].
    rewrite lookup_app_l
      by (rewrite length_insert; by eapply lookup_lt_Some).
    rewrite list_lookup_insert_eq; [done|]. by eapply lookup_lt_Some. }
  assert (Hbody :
    for_each (top :: keys after) (fun top =>
      node ← etree.SubElement (length (store w)) (clark mhs_uri top);
      fields ← lift (getitem (VDict metadata_dict) top);
      items ← lift (dict_of fields "items");
      for_each items (fun sub_val =>
        let '(sub, val) := sub_val in
        when (String.eqb top "Technical")
          (e ← etree.SubElement node (clark mh_uri sub);
           etree.set_text e val);;
        when (String.eqb top "Dynamic")
          (e ← etree.SubElement node sub;
           etree.set_text e val))) w3
    = (Raise (TypeError "Argument must be bytes or unicode"), w6)).
  { cbn [for_each]. erewrite bind_raise; [reflexivity|].
    erewrite bind_ok; cycle 1.
    { eapply (SubElement_run w3 _ _ rcs _ (Some mhs_uri) top); [exact Hroot3 | | |].
      - apply getNsTag_clark_mhs. by destruct (allowed_cases top Htop) as [-> | ->].
      - destruct (allowed_cases top Htop) as [-> | ->];
          [apply accepts_Dynamic | apply accepts_Technical].
      - rewrite mhs_uri_eq. apply accepts_mhs_uri. }
    unfold lift, getitem. rewrite Hget.
    unfold mbind at 1, M_bind at 1. cbn beta iota.
    unfold mbind at 1, M_bind at 1. cbn [dict_of].
    erewrite for_each_app_ok; [|exact Hloop5].
    cbn [for_each]. erewrite bind_raise; [reflexivity | exact Hstep]. }
  eexists _, w6. pose proof (Hbuild _ _ Hbody _ eq_refl) as Hrun.
  split; [exact Hrun|].
  destruct (build_steady metadata_dict w) as (_ & _ & Hself).
  by rewrite Hrun in Hself.
Qed.

End builder_more.

Lemma build_bytes_depend_on_mapping_only_witness :
  exists bs,
    ((@build Reference.lxml Samples.only_dynamic;; to_bytes true) Samples.fresh).1
    = Ok bs
    /\ ((@build Reference.lxml Samples.only_dynamic;; to_bytes true) Samples.built).1
       = Ok bs.
Proof.
  apply (@build_bytes_depend_on_mapping_only Reference.lxml). reflexivity.
Defined.

Lemma build_mapping_round_trip_witness :
  exists w' t,
    @build Reference.lxml Samples.metadata Samples.built = (Ok tt, w')
    /\ held_document w' = Some t
    /\ mapping_of t = Samples.metadata.
Proof.
  apply (@build_mapping_round_trip Reference.lxml). reflexivity.
Defined.

Lemma build_installs_new_document_witness :
  exists doc t,
    self (@build Reference.lxml Samples.only_technical Samples.built).2
    = {| sidecar := Some doc; ctx := ctx (self Samples.built) |}
    /\ length (store Samples.built) <= doc
    /\ held_document (@build Reference.lxml Samples.only_technical Samples.built).2
       = Some t.
Proof.
  destruct (@build_installs_new_document Reference.lxml Samples.only_technical
              Samples.built
              (@build Reference.lxml Samples.only_technical Samples.built).2)
    as (doc & t & Hself & Hdoc & _ & Hheld & _); [reflexivity|].
  exists doc, t. auto.
Defined.


Lemma build_category_not_a_dict_witness :
  exists msg w',
    @build Reference.lxml Samples.malformed_category Samples.built
    = (Raise (AttributeError msg), w')
    /\ self w' = self Samples.built.
Proof.
  apply (@build_category_not_a_dict Reference.lxml Samples.malformed_category
           [("Dynamic", VDict [("title", VStr "Foo")])] [] "Technical" (VStr "md5")).
  - reflexivity.
  - apply (bool_decide_unpack _). reflexivity.
  - apply (bool_decide_unpack _). reflexivity.
  - repeat constructor.
  - intros fields. discriminate.
Defined.

Lemma build_value_not_a_string_witness :
  exists msg w',
    @build Reference.lxml Samples.malformed_value Samples.built
    = (Raise (TypeError msg), w')
    /\ self w' = self Samples.built.
Proof.
  apply (@build_value_not_a_string Reference.lxml Samples.malformed_value
           [("Dynamic", VDict [("title", VStr "Foo")])] [] "Technical"
           [] [] "size" (VInt 3)).
  - reflexivity.
  - apply (bool_decide_unpack _). reflexivity.
  - apply (bool_decide_unpack _). reflexivity.
  - repeat constructor.
  - constructor.
  - reflexivity.
  - intros s. discriminate.
  - discriminate.
Defined.

(** ** class FTP *)

Section ftp.
Variable E : Type.
Variable urlparse_netloc : string -> E + string.
Variable server : list Ftp.call -> Ftp.call -> option E.

Local Abbreviation put := (Ftp.put E server).
Local Abbreviation init := (Ftp.init E urlparse_netloc server).

(** X14.  [put] talks to the session in one order: it enters it, changes
    to the directory, stores, and leaves.  It stores only after the change
    of directory has succeeded, under the command [STOR] and the file name,
    with the content as it was given; it leaves the session whenever it has
    entered it, whether the body raised or not; and it returns only when
    all four calls have gone through. *)
Theorem put_session (self : Ftp.FTP) (content : list byte)
    (path filename : string) (calls : list Ftp.call) :
  exists made,
    (put self content path filename calls).2 = calls ++ made
    /\ head made = Some Ftp.Enter
    /\ (server calls Ftp.Enter = None -> last made = Some Ftp.Exit)
    /\ (forall cmd c,
          Ftp.Storbinary cmd c ∈ made ->
          cmd = "STOR " +:+ filename /\ c = content
          /\ server calls Ftp.Enter = None
          /\ server (calls ++ [Ftp.Enter]) (Ftp.Cwd path) = None)
    /\ ((put self content path filename calls).1 = Ftp.Done tt ->
        made = [Ftp.Enter; Ftp.Cwd path;
                Ftp.Storbinary ("STOR " +:+ filename) content; Ftp.Exit]).
Proof.
  unfold Ftp.put, Ftp.perform.
  destruct (server calls Ftp.Enter) as [e|] eqn:Henter.
  { exists [Ftp.Enter]. cbn. split_and!; try done.
    intros cmd c Hin. apply list_elem_of_singleton in Hin. done. }
  destruct (server (calls ++ [Ftp.Enter]) (Ftp.Cwd path)) as [e|] eqn:Hcwd.
  - exists [Ftp.Enter; Ftp.Cwd path; Ftp.Exit].
    rewrite <- !app_assoc. cbn [app].
    destruct (server _ Ftp.Exit); cbn; (split_and!; try done);
      intros cmd c Hin;
      repeat (apply elem_of_cons in Hin as [Hin|Hin]; [done|]);
      inversion Hin.
  - exists [Ftp.Enter; Ftp.Cwd path;
            Ftp.Storbinary ("STOR " +:+ filename) content; Ftp.Exit].
    rewrite <- !app_assoc. cbn [app].
    destruct (server _ (Ftp.Storbinary _ _)), (server _ Ftp.Exit); cbn;
      (split_and!; try done);
      intros cmd c Hin;
      repeat (apply elem_of_cons in Hin as [Hin|Hin];
              [first [done | by injection Hin as -> ->]|]);
      inversion Hin.
Qed.

(** X15.  An [FTP] made without a context never comes to be: the default
    [ctx=None] has no [config], so that [__connect] raises
    [AttributeError] once the host has been parsed, before any connection
    is tried. *)
Theorem init_without_ctx (host : string) (calls : list Ftp.call) :
  (init host None calls).2 = calls
  /\ exists f,
       (init host None calls).1 = Ftp.Failed f
       /\ forall netloc, urlparse_netloc host = inr netloc ->
                         exists msg, f = Ftp.PyError (AttributeError msg).
Proof.
  unfold Ftp.init, Ftp.set_host, Ftp.connect. cbn.
  destruct (urlparse_netloc host) as [e|netloc]; cbn.
  - split; [done|]. eexists. split; [done|]. intros netloc [=].
  - split; [done|]. eexists. split; [done|]. intros _ _. by eexists.
Qed.

(** X16.  [FTP(host, ctx)] connects once, to the network location of the
    URL it is given and with the user and the password of
    [config['mediahaven']['ftp']].  When one of the two is missing the
    [KeyError] is raised before any connection is tried; what the connection
    raises is raised again. *)
Theorem init_connects_to_netloc (host netloc : string) (config mh ftp : pyval)
    (calls : list Ftp.call) :
  urlparse_netloc host = inr netloc ->
  getitem config "mediahaven" = Ok mh ->
  getitem mh "ftp" = Ok ftp ->
  (forall e,
     getitem ftp "user" = Raise e
     \/ (exists u, getitem ftp "user" = Ok u /\ getitem ftp "passwd" = Raise e) ->
     init host (Some config) calls = (Ftp.Failed (Ftp.PyError e), calls))
  /\ (forall u p,
        getitem ftp "user" = Ok u -> getitem ftp "passwd" = Ok p ->
        init host (Some config) calls
        = (match server calls (Ftp.Connect netloc u p) with
           | None => Ftp.Done {| Ftp.ftp_ctx := Some config; Ftp.ftp_host := netloc |}
           | Some e => Ftp.Failed (Ftp.LibError e)
           end,
           calls ++ [Ftp.Connect netloc u p])).
Proof.
  intros Hnetloc Hmh Hftp.
  unfold Ftp.init, Ftp.set_host, Ftp.connect, Ftp.credentials, Ftp.perform.
  rewrite Hnetloc, Hmh. cbn [rbind]. rewrite Hftp. cbn [rbind]. split.
  - intros e [Huser|(u & Huser & Hpasswd)]; rewrite Huser; cbn [rbind]; [done|].
    by rewrite Hpasswd.
  - intros u p Huser Hpasswd. rewrite Huser. cbn [rbind]. rewrite Hpasswd.
    cbn [rbind]. by destruct (server calls _).
Qed.

End ftp.

Lemma put_session_witness :
  (Ftp.put string (fun _ _ => None)
           {| Ftp.ftp_ctx := None; Ftp.ftp_host := "ftp.example.org" |}
           [] "/in" "a.xml" []).2
  = [Ftp.Enter; Ftp.Cwd "/in"; Ftp.Storbinary "STOR a.xml" []; Ftp.Exit].
Proof.
  destruct (put_session string (fun _ _ => None)
              {| Ftp.ftp_ctx := None; Ftp.ftp_host := "ftp.example.org" |}
              [] "/in" "a.xml" [])
    as (made & Hmade & _ & _ & _ & Hdone).
  rewrite Hmade. apply Hdone. reflexivity.
Defined.

Lemma init_connects_to_netloc_witness :
  Ftp.init string (fun _ => inr "ftp.example.org") (fun _ _ => None)
           "ftp://ftp.example.org"
           (Some (VDict [("mediahaven",
                          VDict [("ftp", VDict [("user", VStr "u");
                                                ("passwd", VStr "p")])])]))
           []
  = (Ftp.Done {| Ftp.ftp_ctx :=
                   Some (VDict [("mediahaven",
                                 VDict [("ftp", VDict [("user", VStr "u");
                                                       ("passwd", VStr "p")])])]);
                 Ftp.ftp_host := "ftp.example.org" |},
     [Ftp.Connect "ftp.example.org" (VStr "u") (VStr "p")]).
Proof.
  destruct (init_connects_to_netloc string (fun _ => inr "ftp.example.org")
              (fun _ _ => None) "ftp://ftp.example.org" "ftp.example.org"
              (VDict [("mediahaven",
                       VDict [("ftp", VDict [("user", VStr "u");
                                             ("passwd", VStr "p")])])])
              (VDict [("ftp", VDict [("user", VStr "u"); ("passwd", VStr "p")])])
              (VDict [("user", VStr "u"); ("passwd", VStr "p")])
              [] eq_refl eq_refl eq_refl)
    as [_ Hconnect].
  apply (Hconnect (VStr "u") (VStr "p")); reflexivity.
Defined.
